(** * Local Lambda invoke service: a model of
    [samcli/local/lambda_service/local_lambda_invoke_service.py]

    The development embeds the request validator, the sync/async
    dispatcher and the Flask wiring of [LocalLambdaInvokeService] and
    proves the properties the specification states about them.

    Conventions.
    - Python [bytes] are [list byte]; a Python [str] obtained by decoding
      a body is a list of Unicode code points ([text]); header names,
      header values and function names are [string]s.
    - A call that may raise returns an [Outcome]; code with effects
      (uuid4, thread start, the Lambda runner, stream writes) runs in the
      monad [M], which threads a [World] holding the trace of effects.
    - The collaborators that live outside the file (json.loads, uuid4,
      the Lambda runner, the output parser) are parameters. *)

From Stdlib Require Import NArith ZArith Ascii String Bool Lia.
From Stdlib.Strings Require Import Byte.
From stdpp Require Import base option list gmap strings.

Local Open Scope N_scope.

(** ** Bytes and text *)

(** A decoded Python [str]: its code points. *)
Definition text := list N.

(** The code points of an ASCII literal of the source. *)
Fixpoint text_of_string (s : string) : text :=
  match s with
  | EmptyString => []
  | String a s' => N_of_ascii a :: text_of_string s'
  end.

(** [b'{}'] *)
Definition empty_json_bytes : list byte := [x7b; x7d]%byte.

(** ** [bytes.decode('utf-8')]

    Strict decoding: a lead byte fixes the length of the sequence, every
    following byte must be a continuation byte, and overlong forms,
    surrogates and values above U+10FFFF are refused.  [None] stands for
    [UnicodeDecodeError]. *)

Definition is_continuation (b : byte) : bool :=
  let n := Byte.to_N b in (0x80 <=? n) && (n <=? 0xBF).

Definition continuation_bits (b : byte) : N := Byte.to_N b - 0x80.

Definition is_surrogate (c : N) : bool := (0xD800 <=? c) && (c <=? 0xDFFF).

Fixpoint utf8_decode (bs : list byte) : option text :=
  match bs with
  | [] => Some []
  | b0 :: rest =>
    let n0 := Byte.to_N b0 in
    if n0 <? 0x80 then
      cons n0 <$> utf8_decode rest
    else if (0xC0 <=? n0) && (n0 <? 0xE0) then
      match rest with
      | b1 :: rest1 =>
        let c := (n0 - 0xC0) * 64 + continuation_bits b1 in
        if is_continuation b1 && (0x80 <=? c)
        then cons c <$> utf8_decode rest1 else None
      | _ => None
      end
    else if (0xE0 <=? n0) && (n0 <? 0xF0) then
      match rest with
      | b1 :: b2 :: rest2 =>
        let c := (n0 - 0xE0) * 4096 + continuation_bits b1 * 64
                 + continuation_bits b2 in
        if is_continuation b1 && is_continuation b2
           && (0x800 <=? c) && negb (is_surrogate c)
        then cons c <$> utf8_decode rest2 else None
      | _ => None
      end
    else if (0xF0 <=? n0) && (n0 <? 0xF8) then
      match rest with
      | b1 :: b2 :: b3 :: rest3 =>
        let c := (n0 - 0xF0) * 262144 + continuation_bits b1 * 4096
                 + continuation_bits b2 * 64 + continuation_bits b3 in
        if is_continuation b1 && is_continuation b2 && is_continuation b3
           && (0x10000 <=? c) && (c <=? 0x10FFFF)
        then cons c <$> utf8_decode rest3 else None
      | _ => None
      end
    else None
  end.

(** The encoder, against which the decoder is checked. *)
Definition byte_of_N (n : N) : byte := default x00%byte (Byte.of_N n).

Definition utf8_encode_char (c : N) : list byte :=
  if c <? 0x80 then [byte_of_N c]
  else if c <? 0x800 then
    [byte_of_N (0xC0 + c / 64); byte_of_N (0x80 + c mod 64)]
  else if c <? 0x10000 then
    [byte_of_N (0xE0 + c / 64 / 64); byte_of_N (0x80 + (c / 64) mod 64);
     byte_of_N (0x80 + c mod 64)]
  else
    [byte_of_N (0xF0 + c / 64 / 64 / 64);
     byte_of_N (0x80 + (c / 64 / 64) mod 64);
     byte_of_N (0x80 + (c / 64) mod 64); byte_of_N (0x80 + c mod 64)].

Definition utf8_encode (t : text) : list byte := flat_map utf8_encode_char t.

(** A Unicode scalar value: at most U+10FFFF and no surrogate. *)
Definition is_scalar (c : N) : bool := (c <=? 0x10FFFF) && negb (is_surrogate c).

(** ** Header names *)

Definition lower_ascii (a : ascii) : ascii :=
  let n := N_of_ascii a in
  if (65 <=? n) && (n <=? 90) then ascii_of_N (n + 32) else a.

(** [str.lower] on the ASCII names headers have. *)
Fixpoint lower (s : string) : string :=
  match s with
  | EmptyString => EmptyString
  | String a s' => String (lower_ascii a) (lower s')
  end.

(** ** Outcomes of calls that may raise *)

Inductive Exn :=
| FunctionNotFound
| ValueError
| UnicodeDecodeError
| OtherException (name : string).

(** [except ValueError] catches [ValueError] and its subclass
    [UnicodeDecodeError]. *)
Definition is_ValueError (e : Exn) : bool :=
  match e with
  | ValueError | UnicodeDecodeError => true
  | FunctionNotFound | OtherException _ => false
  end.

Inductive Outcome (A : Type) :=
| Returned (a : A)
| Raised (e : Exn).
Arguments Returned {A} a.
Arguments Raised {A} e.

(** ** Data model *)

(** The integer of a [uuid.UUID]. *)
Definition UUID := N.

(** A header value of a response: the source passes strings and, for
    the request identifier, the [UUID] object itself. *)
Inductive HeaderValue :=
| HStr (s : string)
| HUuid (u : UUID).

(** The rows of the error table. *)
Inductive ErrorKind :=
| InvalidRequestContent
| NotImplementedLocally
| ResourceNotFound
| ServiceException
| PathNotFound
| MethodNotAllowed.

Record ErrorBody := {
  errorType : ErrorKind;
  errorMessage : string
}.

(** What a response carries: the function's output, or the JSON
    encoding of an [ErrorBody]. *)
Inductive Entity :=
| Text (t : text)
| ErrorJson (e : ErrorBody).

Record ServiceResponse := {
  body : option Entity;
  resp_headers : gmap string HeaderValue;
  status_code : Z
}.

(** How the URL map resolved the request. *)
Inductive Route :=
| Matched (function_name : string)
| NoSuchPath
| WrongMethod.

(** The Flask [request]: [get_data()], [args], [headers], and the
    outcome of routing. *)
Record Request := {
  route : Route;
  get_data : list byte;
  args : list (string * string);
  headers : list (string * string)
}.

(** ** Case-insensitive dictionaries *)

Module CaseInsensitiveDict.

(** Modelled from the spec: [CaseInsensitiveDict] of
    [samcli.local.services.base_local_service] is not under src/.  The
    spec has it "a case-insensitive mapping of header name to value,
    unique keys": keys are stored lower-cased, a later entry of the same
    name replaces an earlier one, and lookups lower-case the name asked
    for.  werkzeug's [request.headers.get] is case-insensitive too and
    is read through the same dictionary (a WSGI environment holds one
    entry per header name). *)
Definition of_list {V : Type} (items : list (string * V)) : gmap string V :=
  foldl (fun d kv => <[lower kv.1 := kv.2]> d) ∅ items.

(** [d.get(key, default)] *)
Definition get {V : Type} (d : gmap string V) (key : string) (default : V) : V :=
  match d !! lower key with
  | Some v => v
  | None => default
  end.

End CaseInsensitiveDict.

(** ** Response builder and error mapper *)

(** Modelled from the spec: [BaseLocalService.service_response] is not
    under src/.  The spec has it "a single constructor for outbound
    responses taking (body, headers, statusCode); headers are merged
    case-insensitively; absent body yields an empty response entity". *)
Definition service_response (body : option Entity)
    (headers : list (string * HeaderValue)) (status_code : Z) : ServiceResponse :=
  {| body := body;
     resp_headers := CaseInsensitiveDict.of_list headers;
     status_code := status_code |}.

Module LambdaErrorResponses.

(** Modelled from the spec: the status column of the error table. *)
Definition status_of (k : ErrorKind) : Z :=
  match k with
  | InvalidRequestContent => 400
  | NotImplementedLocally => 501
  | ResourceNotFound => 404
  | ServiceException => 500
  | PathNotFound => 404
  | MethodNotAllowed => 405
  end.

(** Modelled from the spec: [LambdaErrorResponses] is not under src/.
    Every error is "a stable (statusCode, jsonBody) pair", the body
    "JSON-encoded and returned with Content-Type: application/json". *)
Definition error_response (k : ErrorKind) (message : string) : ServiceResponse :=
  service_response
    (Some (ErrorJson {| errorType := k; errorMessage := message |}))
    [("Content-Type", HStr "application/json")]
    (status_of k).

(** Modelled from the spec: "malformed JSON body | 400" and "query
    parameters present | 400"; the message is the caller's. *)
Definition invalid_request_content (message : string) : ServiceResponse :=
  error_response InvalidRequestContent message.

(** Modelled from the spec: "unsupported log-type / invocation-type
    value | 501-class (not implemented locally)"; the message is the
    caller's. *)
Definition not_implemented_locally (message : string) : ServiceResponse :=
  error_response NotImplementedLocally message.

(** Modelled from the spec: "function not found | 404 | message names
    the missing function".  The spec gives no wording around the name,
    so the message is the name. *)
Definition resource_not_found (function_name : string) : ServiceResponse :=
  error_response ResourceNotFound function_name.

(** Modelled from the spec: "unhandled transport fault | 500 | generic
    service-exception body"; the wording is not given, the message
    repeats the tag. *)
Definition generic_service_exception : ServiceResponse :=
  error_response ServiceException "ServiceException".

(** Modelled from the spec: "unmatched path | 404 | generic
    path-not-found body". *)
Definition generic_path_not_found : ServiceResponse :=
  error_response PathNotFound "PathNotFoundException".

(** Modelled from the spec: "unsupported HTTP method on a known path |
    405 | generic method-not-allowed body". *)
Definition generic_method_not_allowed : ServiceResponse :=
  error_response MethodNotAllowed "MethodNotAllowedException".

End LambdaErrorResponses.

(** ** Effects *)

(** A stream object handed to the service as [stderr]. *)
Inductive Stream := StreamId (n : nat).

(** The callables of the service that are given to a thread as its
    target: the bound method [self._invoke_sync_request]. *)
Inductive Callable := Method_invoke_sync_request.

(** A [threading.Thread]: its [target] ([None] when it has none), the
    positional and keyword arguments it was built with and its
    [daemon] flag. *)
Record Thread := {
  target : option Callable;
  thread_function_name : string;
  thread_request_data : text;
  thread_stdout : list byte;
  thread_stderr : option Stream;
  daemon : bool
}.

(** The effects the service performs, in the order it performs them. *)
Inductive Event :=
| EvUuid4 (request_id : UUID)
| EvThreadStart (t : Thread)
| EvInvoke (function_name : string) (request_data : text) (stderr : option Stream)
| EvGetLambdaOutput (stdout : list byte)
| EvWrite (s : Stream) (data : text).

Record World := {
  uuid_calls : nat;
  events : list Event
}.

(** State and exceptions. *)
Definition M (A : Type) : Type := World -> Outcome A * World.

Definition ret {A : Type} (a : A) : M A := fun w => (Returned a, w).

Definition bind {A B : Type} (m : M A) (k : A -> M B) : M B :=
  fun w =>
    match m w with
    | (Returned a, w') => k a w'
    | (Raised e, w') => (Raised e, w')
    end.

Notation "x <- m ;; k" := (bind m (fun x => k))
  (at level 100, m at next level, right associativity).
Notation "m ;; k" := (bind m (fun _ => k))
  (at level 100, right associativity).

Definition emit (e : Event) : M unit :=
  fun w => (Returned tt, {| uuid_calls := uuid_calls w; events := events w ++ [e] |}).

(** ** The service *)

(** [self]: the Lambda runner and the optional stderr stream.  The
    runner is the execution engine, [invoke(functionName, payloadText,
    outputSink, errorSink)]: it returns the bytes it wrote to the
    output sink, or raises.  Its code is outside the service; the
    outcome of a call is taken as given by the function name and the
    payload, and what the engine does of its own (its writes to the
    error sink, the container it runs) is not part of the trace, which
    records the effects of the service. *)
Record LocalLambdaInvokeService := {
  lambda_runner : string -> text -> Outcome (list byte);
  stderr : option Stream
}.

Section Service.

(** [json.loads] on a [str]: it returns when the text parses and
    raises otherwise, [ValueError] for a text that is not JSON. *)
Variable json_loads : text -> Outcome unit.

(** The identifier the n-th call of [uuid4()] returns. *)
Variable uuid4_gen : nat -> UUID.

(** [LambdaOutputParser.get_lambda_output]: the response, the logs
    (possibly [None]) and the user-error flag read off the captured
    output, unless it raises. *)
Variable get_lambda_output :
  list byte -> Outcome (text * option text * bool).

(** [request_data.decode('utf-8')] *)
Definition decode (request_data : list byte) : Outcome text :=
  match utf8_decode request_data with
  | Some t => Returned t
  | None => Raised UnicodeDecodeError
  end.

(** [if not request_data: request_data = b'{}'] *)
Definition default_body (request_data : list byte) : list byte :=
  match request_data with
  | [] => empty_json_bytes
  | _ :: _ => request_data
  end.

Definition parse_error_message : string :=
  "Could not parse request body into json: No JSON object could be decoded".

Definition query_error_message : string :=
  "Query Parameters are not supported".

Definition log_type_error_message (log_type : string) : string :=
  "log-type: " +:+ log_type +:+ " is not supported. None is only supported.".

Definition invocation_type_error_message (invocation_type : string) : string :=
  "invocation-type: " +:+ invocation_type +:+
  " is not supported. Supported types: Event, RequestResponse.".

(** [flask_request.args] is truthy when it holds a parameter. *)
Definition has_args (flask_request : Request) : bool :=
  match args flask_request with
  | [] => false
  | _ :: _ => true
  end.

(** [x in ['Event', 'RequestResponse']] *)
Definition supported_invocation_type (invocation_type : string) : bool :=
  String.eqb invocation_type "Event"
  || String.eqb invocation_type "RequestResponse".

(** [validate_request]: a response when the request is refused,
    [None] when it passes.  The decode of line 84 may raise, and so
    may [json.loads]: the [try] of lines 86-91 catches [ValueError]
    only. *)
Definition validate_request (flask_request : Request)
    : Outcome (option ServiceResponse) :=
  let request_data := default_body (get_data flask_request) in
  match decode request_data with
  | Raised e => Raised e
  | Returned request_data =>
    match json_loads request_data with
    | Raised json_error =>
      if is_ValueError json_error then
        Returned (Some (LambdaErrorResponses.invalid_request_content
                          parse_error_message))
      else Raised json_error
    | Returned _ =>
      if has_args flask_request then
        Returned (Some (LambdaErrorResponses.invalid_request_content
                          query_error_message))
      else
        let request_headers :=
          CaseInsensitiveDict.of_list (headers flask_request) in
        let log_type :=
          CaseInsensitiveDict.get request_headers "X-Amz-Log-Type" "None" in
        if negb (String.eqb log_type "None") then
          Returned (Some (LambdaErrorResponses.not_implemented_locally
                            (log_type_error_message log_type)))
        else
          let invocation_type :=
            CaseInsensitiveDict.get request_headers
              "X-Amz-Invocation-Type" "RequestResponse" in
          if negb (supported_invocation_type invocation_type) then
            Returned (Some (LambdaErrorResponses.not_implemented_locally
                              (invocation_type_error_message invocation_type)))
          else Returned None
    end
  end.

(** [uuid4()] *)
Definition uuid4 : M UUID :=
  fun w =>
    let request_id := uuid4_gen (uuid_calls w) in
    (Returned request_id,
     {| uuid_calls := S (uuid_calls w);
        events := events w ++ [EvUuid4 request_id] |}).

(** [thread.start()] *)
Definition Thread_start (t : Thread) : M unit := emit (EvThreadStart t).

(** [self.lambda_runner.invoke(function_name, request_data,
    stdout=stdout, stderr=stderr)]: the contents of [stdout] after the
    call. *)
Definition invoke (self : LocalLambdaInvokeService) (function_name : string)
    (request_data : text) (stdout : list byte) (stderr : option Stream)
    : M (list byte) :=
  fun w =>
    let w' := {| uuid_calls := uuid_calls w;
                 events := events w
                           ++ [EvInvoke function_name request_data stderr] |} in
    match lambda_runner self function_name request_data with
    | Returned written => (Returned (stdout ++ written), w')
    | Raised e => (Raised e, w')
    end.

(** [stderr.write(lambda_logs)] under [if stderr and lambda_logs]. *)
Definition write_logs (stderr : option Stream) (lambda_logs : option text)
    : M unit :=
  match stderr, lambda_logs with
  | Some s, Some (c :: cs) => emit (EvWrite s (c :: cs))
  | _, _ => ret tt
  end.

Definition json_content_type : string * HeaderValue :=
  ("Content-Type"%string, HStr "application/json").

Definition function_error_unhandled : string * HeaderValue :=
  ("x-amz-function-error"%string, HStr "Unhandled").

(** [LambdaOutputParser.get_lambda_output(stdout)], called outside any
    [try]: what it raises escapes. *)
Definition parse_output (stdout : list byte)
    : M (text * option text * bool) :=
  emit (EvGetLambdaOutput stdout) ;;
  fun w => (get_lambda_output stdout, w).

(** What follows the [try] of [_invoke_sync_request]. *)
Definition shape_lambda_output (stdout : list byte) (stderr : option Stream)
    : M ServiceResponse :=
  parsed <- parse_output stdout ;;
  let '(lambda_response, lambda_logs, is_lambda_user_error_response) :=
    parsed in
  write_logs stderr lambda_logs ;;
  if is_lambda_user_error_response then
    ret (service_response (Some (Text lambda_response))
           [json_content_type; function_error_unhandled] 200%Z)
  else
    ret (service_response (Some (Text lambda_response))
           [json_content_type] 200%Z).

Definition _invoke_sync_request (self : LocalLambdaInvokeService)
    (function_name : string) (request_data : text)
    (stdout : list byte) (stderr : option Stream) : M ServiceResponse :=
  fun w =>
    match invoke self function_name request_data stdout stderr w with
    | (Raised FunctionNotFound, w') =>
        (Returned (LambdaErrorResponses.resource_not_found function_name), w')
    | (Raised e, w') => (Raised e, w')
    | (Returned stdout, w') => shape_lambda_output stdout stderr w'
    end.

Definition _invoke_async_request (self : LocalLambdaInvokeService)
    (function_name : string) (request_data : text)
    (stdout : list byte) (stderr : option Stream) : M ServiceResponse :=
  request_id <- uuid4 ;;
  let thread := {| target := Some Method_invoke_sync_request;
                   thread_function_name := function_name;
                   thread_request_data := request_data;
                   thread_stdout := stdout;
                   thread_stderr := stderr;
                   daemon := true |} in
  Thread_start thread ;;
  ret (service_response None [("x-amzn-requestid"%string, HUuid request_id)] 202%Z).

Definition _invoke_request_handler (self : LocalLambdaInvokeService)
    (function_name : string) (flask_request : Request) : M ServiceResponse :=
  let request_data := get_data flask_request in
  let invocation_type :=
    CaseInsensitiveDict.get
      (CaseInsensitiveDict.of_list (headers flask_request))
      "X-Amz-Invocation-Type" "RequestResponse" in
  let request_data := default_body request_data in
  fun w =>
    match decode request_data with
    | Raised e => (Raised e, w)
    | Returned request_data =>
      let stdout_stream := [] in
      if String.eqb invocation_type "Event" then
        _invoke_async_request self function_name request_data
          stdout_stream (stderr self) w
      else
        _invoke_sync_request self function_name request_data
          stdout_stream (stderr self) w
    end.

(** [Thread.run]: the target, if there is one, is called with the
    thread's arguments and what it returns is dropped.  [self] is the
    service the bound method belongs to. *)
Definition Thread_run (self : LocalLambdaInvokeService) (t : Thread) : M unit :=
  match target t with
  | Some Method_invoke_sync_request =>
    _invoke_sync_request self (thread_function_name t) (thread_request_data t)
      (thread_stdout t) (thread_stderr t) ;;
    ret tt
  | None => ret tt
  end.

(** The application [create] builds: [validate_request] runs before the
    view, a response it returns is the answer, the routing errors go to
    the 404 and 405 handlers and an exception that escapes goes to the
    500 handler ([_construct_error_handling]). *)
Definition wsgi_app (self : LocalLambdaInvokeService) (flask_request : Request)
    : World -> ServiceResponse * World :=
  fun w =>
    match validate_request flask_request with
    | Raised _ => (LambdaErrorResponses.generic_service_exception, w)
    | Returned (Some rv) => (rv, w)
    | Returned None =>
      match route flask_request with
      | NoSuchPath => (LambdaErrorResponses.generic_path_not_found, w)
      | WrongMethod => (LambdaErrorResponses.generic_method_not_allowed, w)
      | Matched function_name =>
        match _invoke_request_handler self function_name flask_request w with
        | (Returned rv, w') => (rv, w')
        | (Raised _, w') => (LambdaErrorResponses.generic_service_exception, w')
        end
      end
    end.

End Service.

(** ** The validation rules as the specification lists them *)

Inductive Check :=
| BodyIsJson
| NoQueryParameters
| LogTypeIsNone
| InvocationTypeSupported.

(** The four rules in the order of the specification. *)
Definition checks : list Check :=
  [BodyIsJson; NoQueryParameters; LogTypeIsNone; InvocationTypeSupported].

(** The value of a request header, when the request has it. *)
Definition request_header (flask_request : Request) (name : string)
    : option string :=
  CaseInsensitiveDict.of_list (headers flask_request) !! lower name.

Section Rules.

Variable json_loads : text -> Outcome unit.

(** Rule 1: the body, an empty one read as [{}], parses as JSON.
    Rule 2: no query parameters.  Rule 3: [X-Amz-Log-Type], if present,
    equals [None].  Rule 4: [X-Amz-Invocation-Type], if present, is
    [Event] or [RequestResponse]. *)
Definition check_holds (c : Check) (flask_request : Request) : bool :=
  match c with
  | BodyIsJson =>
    match utf8_decode (default_body (get_data flask_request)) with
    | Some t =>
      match json_loads t with
      | Returned _ => true
      | Raised _ => false
      end
    | None => false
    end
  | NoQueryParameters =>
    match args flask_request with
    | [] => true
    | _ :: _ => false
    end
  | LogTypeIsNone =>
    match request_header flask_request "X-Amz-Log-Type" with
    | Some v => String.eqb v "None"
    | None => true
    end
  | InvocationTypeSupported =>
    match request_header flask_request "X-Amz-Invocation-Type" with
    | Some v => String.eqb v "Event" || String.eqb v "RequestResponse"
    | None => true
    end
  end.

(** The rejection of each rule. *)
Definition rejection (c : Check) (flask_request : Request) : ServiceResponse :=
  match c with
  | BodyIsJson =>
    LambdaErrorResponses.invalid_request_content parse_error_message
  | NoQueryParameters =>
    LambdaErrorResponses.invalid_request_content query_error_message
  | LogTypeIsNone =>
    LambdaErrorResponses.not_implemented_locally
      (log_type_error_message
         (default "None"%string (request_header flask_request "X-Amz-Log-Type")))
  | InvocationTypeSupported =>
    LambdaErrorResponses.not_implemented_locally
      (invocation_type_error_message
         (default "RequestResponse"%string
            (request_header flask_request "X-Amz-Invocation-Type")))
  end.

(** First failure wins: the rejection of the first rule of [cs] that
    does not hold, [None] when all hold. *)
Fixpoint first_failure (cs : list Check) (flask_request : Request)
    : option ServiceResponse :=
  match cs with
  | [] => None
  | c :: cs' =>
    if check_holds c flask_request then first_failure cs' flask_request
    else Some (rejection c flask_request)
  end.

End Rules.

(** ** Test doubles for the collaborators *)

Module Sample.

Definition is_ws (c : N) : bool :=
  (c =? 32) || (c =? 9) || (c =? 10) || (c =? 13).

Fixpoint skip_ws (t : text) : text :=
  match t with
  | c :: t' => if is_ws c then skip_ws t' else t
  | [] => []
  end.

Definition is_digit (c : N) : bool := (48 <=? c) && (c <=? 57).

Definition is_hex (c : N) : bool :=
  is_digit c || ((65 <=? c) && (c <=? 70)) || ((97 <=? c) && (c <=? 102)).

Fixpoint skip_digits (t : text) : text :=
  match t with
  | c :: t' => if is_digit c then skip_digits t' else t
  | [] => []
  end.

(** One digit at least, then the rest of the run. *)
Definition digits1 (t : text) : option text :=
  match t with
  | c :: t' => if is_digit c then Some (skip_digits t') else None
  | [] => None
  end.

(** A JSON number: an optional minus, an integer part without a
    leading zero, an optional fraction, an optional exponent. *)
Definition scan_number (t : text) : option text :=
  let t := match t with 45 :: t' => t' | _ => t end in
  t ← match t with
      | 48 :: t' => Some t'
      | _ => digits1 t
      end;
  t ← match t with
      | 46 :: t' => digits1 t'
      | _ => Some t
      end;
  match t with
  | c :: t' =>
    if (c =? 101) || (c =? 69) then
      match t' with
      | s :: t'' => if (s =? 43) || (s =? 45) then digits1 t'' else digits1 t'
      | [] => None
      end
    else Some t
  | [] => Some t
  end.

(** After the opening quote: up to and past the closing quote. *)
Fixpoint scan_string (t : text) : option text :=
  match t with
  | [] => None
  | 34 :: t' => Some t'
  | 92 :: 117 :: h1 :: h2 :: h3 :: h4 :: t' =>
    if is_hex h1 && is_hex h2 && is_hex h3 && is_hex h4
    then scan_string t' else None
  | 92 :: e :: t' =>
    if existsb (N.eqb e) [34; 92; 47; 98; 102; 110; 114; 116]
    then scan_string t' else None
  | c :: t' => if c <? 32 then None else scan_string t'
  end.

(** [t] starts with the literal [lit]: what follows it. *)
Fixpoint scan_literal (lit t : text) : option text :=
  match lit, t with
  | [], _ => Some t
  | l :: lit', c :: t' => if l =? c then scan_literal lit' t' else None
  | _ :: _, [] => None
  end.

Fixpoint scan_value (fuel : nat) (t : text) : option text :=
  match fuel with
  | O => None
  | S fuel =>
    match t with
    | 34 :: t' => scan_string t'
    | 123 :: t' =>
      match skip_ws t' with
      | 125 :: t'' => Some t''
      | t'' => scan_members fuel t''
      end
    | 91 :: t' =>
      match skip_ws t' with
      | 93 :: t'' => Some t''
      | t'' => scan_elements fuel t''
      end
    | 116 :: _ => scan_literal (text_of_string "true") t
    | 102 :: _ => scan_literal (text_of_string "false") t
    | 110 :: _ => scan_literal (text_of_string "null") t
    | 78 :: _ => scan_literal (text_of_string "NaN") t
    | 73 :: _ => scan_literal (text_of_string "Infinity") t
    | 45 :: 73 :: _ => scan_literal (text_of_string "-Infinity") t
    | _ => scan_number t
    end
  end
with scan_elements (fuel : nat) (t : text) : option text :=
  match fuel with
  | O => None
  | S fuel =>
    t ← scan_value fuel t;
    match skip_ws t with
    | 44 :: t' => scan_elements fuel (skip_ws t')
    | 93 :: t' => Some t'
    | _ => None
    end
  end
with scan_members (fuel : nat) (t : text) : option text :=
  match fuel with
  | O => None
  | S fuel =>
    match t with
    | 34 :: t' =>
      t ← scan_string t';
      match skip_ws t with
      | 58 :: t' =>
        t ← scan_value fuel (skip_ws t');
        match skip_ws t with
        | 44 :: t' => scan_members fuel (skip_ws t')
        | 125 :: t' => Some t'
        | _ => None
        end
      | _ => None
      end
    | _ => None
    end
  end.

(** A recognizer of JSON texts: one value between optional white
    space. *)
Definition is_json (t : text) : bool :=
  match scan_value (2 * length t + 2) (skip_ws t) with
  | Some rest => match skip_ws rest with [] => true | _ => false end
  | None => false
  end.

(** [json.loads] standing in: it returns on the texts the recognizer
    accepts and raises [ValueError] on the others. *)
Definition json_loads (t : text) : Outcome unit :=
  if is_json t then Returned () else Raised ValueError.

(** [uuid4] standing in: the n-th identifier is n. *)
Definition uuid4_gen (n : nat) : UUID := N.of_nat n.

(** The text before and after the last line feed. *)
Fixpoint split_last_line (t : text) : option text * text :=
  match t with
  | [] => (None, [])
  | c :: t' =>
    match split_last_line t' with
    | (Some logs, last) => (Some (c :: logs), last)
    | (None, last) =>
      if c =? 10 then (Some [], last) else (None, c :: last)
    end
  end.

(** An object that opens with the key [errorMessage]. *)
Definition error_message_prefix : text :=
  123 :: 34 :: text_of_string "errorMessage" ++ [34; 58].

(** An output parser standing in for [LambdaOutputParser]: the output
    is decoded, which raises when it is not UTF-8; the last line is the
    response, what precedes it the logs, and a response that is an
    object with an [errorMessage] first is a user error. *)
Definition get_lambda_output (stdout : list byte)
    : Outcome (text * option text * bool) :=
  match utf8_decode stdout with
  | None => Raised UnicodeDecodeError
  | Some output =>
    let '(logs, response) := split_last_line output in
    Returned
      (response, logs,
       bool_decide (is_Some (scan_literal error_message_prefix response)))
  end.

End Sample.

Module SampleService.

Definition bytes_of_string (s : string) : list byte := list_byte_of_string s.

(** What the function [foo] prints: a log line, then [{}]. *)
Definition foo_output : list byte :=
  bytes_of_string "START RequestId" ++ [x0a]%byte ++ empty_json_bytes.

Definition foo_logs : text := text_of_string "START RequestId".

(** What the function [boom] prints: a log line, then an error object. *)
Definition boom_output : list byte :=
  bytes_of_string "Traceback" ++ [x0a; x7b; x22]%byte
  ++ bytes_of_string "errorMessage" ++ [x22; x3a; x31; x7d]%byte.

Definition boom_logs : text := text_of_string "Traceback".

Definition boom_response : text := Sample.error_message_prefix ++ [49; 125].

(** A runner that knows four functions: [foo] logs a line and answers
    [{}], [quiet] answers [{}] without logs, [boom] answers an error
    object after a log line and [garbled] prints a byte that is not
    UTF-8; [crash] fails in the engine and any other name is unknown. *)
Definition runner (function_name : string) (request_data : text)
    : Outcome (list byte) :=
  if String.eqb function_name "foo" then Returned foo_output
  else if String.eqb function_name "quiet" then Returned empty_json_bytes
  else if String.eqb function_name "boom" then Returned boom_output
  else if String.eqb function_name "garbled" then Returned [xff]%byte
  else if String.eqb function_name "crash" then
    Raised (OtherException "DockerError")
  else Raised FunctionNotFound.

Definition service : LocalLambdaInvokeService :=
  {| lambda_runner := runner; stderr := Some (StreamId 2) |}.

Definition world0 : World := {| uuid_calls := 0; events := [] |}.


(** [POST /2015-03-31/functions/<name>/invocations] with the given body,
    query parameters and headers. *)
Definition post (function_name : string) (body : list byte)
    (args : list (string * string)) (headers : list (string * string)) : Request :=
  {| route := Matched function_name;
     get_data := body; args := args; headers := headers |}.

(** A body that is not UTF-8, alone and with a query parameter. *)
Definition undecodable : Request := post "foo" [xff]%byte [] [].

Definition undecodable_with_query : Request :=
  post "foo" [xff]%byte [("a", "1")]%string [].

(** An [Event] request and a plain one, both without body. *)
Definition event_request : Request :=
  post "foo" [] [] [("X-Amz-Invocation-Type", "Event")]%string.

Definition plain_request : Request := post "foo" [] [] [].

(** A request for the function whose output is not UTF-8. *)
Definition garbled_request : Request := post "garbled" [] [] [].

(** A body that is not JSON, with a query parameter. *)
Definition unparsable_with_query : Request :=
  post "foo" [x7b]%byte [("a", "1")]%string [].

End SampleService.

(** The value of a response header. *)
Definition response_header (rv : ServiceResponse) (name : string)
    : option HeaderValue :=
  resp_headers rv !! lower name.

(** The world after further effects. *)
Definition extend (w : World) (evs : list Event) : World :=
  {| uuid_calls := uuid_calls w; events := events w ++ evs |}.

(** The events [write_logs] adds. *)
Definition log_events (stderr : option Stream) (lambda_logs : option text)
    : list Event :=
  match stderr, lambda_logs with
  | Some s, Some (c :: cs) => [EvWrite s (c :: cs)]
  | _, _ => []
  end.

(** The headers of the answer to a synchronous invocation. *)
Definition lambda_headers (is_lambda_user_error_response : bool)
    : list (string * HeaderValue) :=
  if is_lambda_user_error_response
  then [json_content_type; function_error_unhandled]
  else [json_content_type].

(** The request with another body, and with other headers. *)
Definition with_data (flask_request : Request) (request_data : list byte)
    : Request :=
  {| route := route flask_request;
     get_data := request_data;
     args := args flask_request;
     headers := headers flask_request |}.

Definition with_headers (flask_request : Request)
    (request_headers : list (string * string)) : Request :=
  {| route := route flask_request;
     get_data := get_data flask_request;
     args := args flask_request;
     headers := request_headers |}.

(** The name of the header that selects the dispatch. *)
Definition invocation_type_header : string := "X-Amz-Invocation-Type".



(** A byte of the ASCII range. *)
Definition is_ascii_byte (b : byte) : bool := Byte.to_N b <? 0x80.

Section Serving.

Variable json_loads : text -> Outcome unit.
Variable uuid4_gen : nat -> UUID.
Variable get_lambda_output :
  list byte -> Outcome (text * option text * bool).
Variable self : LocalLambdaInvokeService.

(** The worlds the application reaches from a world by answering
    requests one after another. *)
Inductive serves : World -> World -> Prop :=
| serves_done w : serves w w
| serves_request w flask_request w' :
    serves (wsgi_app json_loads uuid4_gen get_lambda_output self
              flask_request w).2 w' ->
    serves w w'.

End Serving.

(** ** Properties *)

Lemma extend_nil w : extend w [] = w.
Proof. destruct w; unfold extend; simpl. by rewrite app_nil_r. Qed.

Lemma extend_extend w evs evs' :
  extend (extend w evs) evs' = extend w (evs ++ evs').
Proof. unfold extend; simpl. by rewrite app_assoc. Qed.

Lemma emit_extend e w : emit e w = (Returned (), extend w [e]).
Proof. reflexivity. Qed.

(** *** The decoder inverts the encoder *)

Lemma to_N_byte_of_N n : n < 256 -> Byte.to_N (byte_of_N n) = n.
Proof.
  intros H. unfold byte_of_N.
  destruct (Byte.of_N n) as [b|] eqn:Hb.
  - simpl. by apply Byte.to_of_N.
  - apply Byte.of_N_None_iff in Hb. lia.
Qed.

Lemma continuation_byte r :
  r < 64 ->
  is_continuation (byte_of_N (0x80 + r)) = true
  /\ continuation_bits (byte_of_N (0x80 + r)) = r.
Proof.
  intros Hr. unfold is_continuation, continuation_bits.
  rewrite to_N_byte_of_N by lia. split; [|lia].
  apply andb_true_intro. split; apply N.leb_le; lia.
Qed.

Lemma utf8_decode_encode_char c rest :
  is_scalar c = true ->
  utf8_decode (utf8_encode_char c ++ rest) = cons c <$> utf8_decode rest.
Proof.
  unfold is_scalar, utf8_encode_char. intros Hc.
  apply andb_prop in Hc as [Hmax Hsur]. apply N.leb_le in Hmax.
  apply negb_true_iff in Hsur.
  pose proof (N.Div0.div_mod c 64) as E0.
  pose proof (N.mod_upper_bound c 64 ltac:(discriminate)) as B0.
  pose proof (N.Div0.div_mod (c / 64) 64) as E1.
  pose proof (N.mod_upper_bound (c / 64) 64 ltac:(discriminate)) as B1.
  pose proof (N.Div0.div_mod (c / 64 / 64) 64) as E2.
  pose proof (N.mod_upper_bound (c / 64 / 64) 64 ltac:(discriminate)) as B2.
  destruct (continuation_byte _ B0) as [C0 V0].
  destruct (continuation_byte _ B1) as [C1 V1].
  destruct (continuation_byte _ B2) as [C2 V2].
  destruct (N.ltb_spec c 0x80) as [H1|H1].
  - cbn [app utf8_decode]. rewrite to_N_byte_of_N by lia.
    apply N.ltb_lt in H1. by rewrite H1.
  - destruct (N.ltb_spec c 0x800) as [H2|H2].
    + cbn [app utf8_decode]. rewrite to_N_byte_of_N by lia.
      rewrite C0, V0.
      replace (0xC0 + c / 64 <? 0x80) with false by (symmetry; apply N.ltb_ge; lia).
      replace (0xC0 <=? 0xC0 + c / 64) with true by (symmetry; apply N.leb_le; lia).
      replace (0xC0 + c / 64 <? 0xE0) with true by (symmetry; apply N.ltb_lt; lia).
      replace ((0xC0 + c / 64 - 0xC0) * 64 + c mod 64) with c by lia.
      replace (0x80 <=? c) with true by (symmetry; apply N.leb_le; lia).
      reflexivity.
    + destruct (N.ltb_spec c 0x10000) as [H3|H3].
      * cbn [app utf8_decode]. rewrite to_N_byte_of_N by lia.
        rewrite C0, V0, C1, V1.
        replace (0xE0 + c / 64 / 64 <? 0x80) with false by (symmetry; apply N.ltb_ge; lia).
        replace (0xC0 <=? 0xE0 + c / 64 / 64) with true by (symmetry; apply N.leb_le; lia).
        replace (0xE0 + c / 64 / 64 <? 0xE0) with false by (symmetry; apply N.ltb_ge; lia).
        replace (0xE0 <=? 0xE0 + c / 64 / 64) with true by (symmetry; apply N.leb_le; lia).
        replace (0xE0 + c / 64 / 64 <? 0xF0) with true by (symmetry; apply N.ltb_lt; lia).
        replace ((0xE0 + c / 64 / 64 - 0xE0) * 4096 + (c / 64) mod 64 * 64 + c mod 64)
          with c by lia.
        replace (0x800 <=? c) with true by (symmetry; apply N.leb_le; lia).
        rewrite Hsur. reflexivity.
      * cbn [app utf8_decode]. rewrite to_N_byte_of_N by lia.
        rewrite C0, V0, C1, V1, C2, V2.
        replace (0xF0 + c / 64 / 64 / 64 <? 0x80) with false by (symmetry; apply N.ltb_ge; lia).
        replace (0xC0 <=? 0xF0 + c / 64 / 64 / 64) with true by (symmetry; apply N.leb_le; lia).
        replace (0xF0 + c / 64 / 64 / 64 <? 0xE0) with false by (symmetry; apply N.ltb_ge; lia).
        replace (0xE0 <=? 0xF0 + c / 64 / 64 / 64) with true by (symmetry; apply N.leb_le; lia).
        replace (0xF0 + c / 64 / 64 / 64 <? 0xF0) with false by (symmetry; apply N.ltb_ge; lia).
        replace (0xF0 <=? 0xF0 + c / 64 / 64 / 64) with true by (symmetry; apply N.leb_le; lia).
        replace (0xF0 + c / 64 / 64 / 64 <? 0xF8) with true by (symmetry; apply N.ltb_lt; lia).
        replace ((0xF0 + c / 64 / 64 / 64 - 0xF0) * 262144
                 + (c / 64 / 64) mod 64 * 4096 + (c / 64) mod 64 * 64 + c mod 64)
          with c by lia.
        replace (0x10000 <=? c) with true by (symmetry; apply N.leb_le; lia).
        replace (c <=? 0x10FFFF) with true by (symmetry; apply N.leb_le; lia).
        reflexivity.
Qed.

(** X11: every text of Unicode scalar values is recovered from its
    UTF-8 encoding. *)
Lemma utf8_decode_encode t :
  forallb is_scalar t = true -> utf8_decode (utf8_encode t) = Some t.
Proof.
  induction t as [|c t IH]; [reflexivity|]. simpl. intros H.
  apply andb_prop in H as [Hc Ht].
  rewrite utf8_decode_encode_char by exact Hc. by rewrite IH.
Qed.

Section Properties.

Variable json_loads : text -> Outcome unit.
Variable uuid4_gen : nat -> UUID.
Variable get_lambda_output :
  list byte -> Outcome (text * option text * bool).

(** *** The synchronous path *)

Lemma write_logs_extend stderr lambda_logs w :
  write_logs stderr lambda_logs w
  = (Returned (), extend w (log_events stderr lambda_logs)).
Proof.
  destruct stderr as [s|], lambda_logs as [[|c cs]|]; simpl;
    rewrite ?emit_extend, ?extend_nil; reflexivity.
Qed.

Lemma shape_lambda_output_eq stdout stderr w :
  shape_lambda_output get_lambda_output stdout stderr w
  = match get_lambda_output stdout with
    | Returned (lambda_response, lambda_logs, is_error) =>
        (Returned (service_response (Some (Text lambda_response))
                     (lambda_headers is_error) 200%Z),
         extend w (EvGetLambdaOutput stdout :: log_events stderr lambda_logs))
    | Raised e => (Raised e, extend w [EvGetLambdaOutput stdout])
    end.
Proof.
  unfold shape_lambda_output, parse_output, bind.
  rewrite emit_extend.
  destruct (get_lambda_output stdout)
    as [[[lambda_response lambda_logs] is_error]|e]; [|reflexivity].
  rewrite write_logs_extend, extend_extend. simpl.
  destruct is_error; reflexivity.
Qed.

Lemma invoke_eq self function_name request_data stdout stderr w :
  invoke self function_name request_data stdout stderr w
  = (match lambda_runner self function_name request_data with
     | Returned written => Returned (stdout ++ written)
     | Raised e => Raised e
     end,
     extend w [EvInvoke function_name request_data stderr]).
Proof.
  unfold invoke.
  destruct (lambda_runner self function_name request_data); reflexivity.
Qed.

Lemma sync_returned self function_name request_data stdout stderr w written
    lambda_response lambda_logs is_error :
  lambda_runner self function_name request_data = Returned written ->
  get_lambda_output (stdout ++ written)
  = Returned (lambda_response, lambda_logs, is_error) ->
  _invoke_sync_request get_lambda_output self function_name request_data
    stdout stderr w
  = (Returned (service_response (Some (Text lambda_response))
                 (lambda_headers is_error) 200%Z),
     extend w (EvInvoke function_name request_data stderr
               :: EvGetLambdaOutput (stdout ++ written)
               :: log_events stderr lambda_logs)).
Proof.
  intros Hrun Hout. unfold _invoke_sync_request.
  rewrite invoke_eq, Hrun, shape_lambda_output_eq, Hout, extend_extend.
  reflexivity.
Qed.

Lemma sync_parser_raised self function_name request_data stdout stderr w
    written e :
  lambda_runner self function_name request_data = Returned written ->
  get_lambda_output (stdout ++ written) = Raised e ->
  _invoke_sync_request get_lambda_output self function_name request_data
    stdout stderr w
  = (Raised e,
     extend w [EvInvoke function_name request_data stderr;
               EvGetLambdaOutput (stdout ++ written)]).
Proof.
  intros Hrun Hout. unfold _invoke_sync_request.
  rewrite invoke_eq, Hrun, shape_lambda_output_eq, Hout, extend_extend.
  reflexivity.
Qed.

Lemma sync_not_found self function_name request_data stdout stderr w :
  lambda_runner self function_name request_data = Raised FunctionNotFound ->
  _invoke_sync_request get_lambda_output self function_name request_data
    stdout stderr w
  = (Returned (LambdaErrorResponses.resource_not_found function_name),
     extend w [EvInvoke function_name request_data stderr]).
Proof.
  intros Hrun. unfold _invoke_sync_request. rewrite invoke_eq, Hrun.
  reflexivity.
Qed.

Lemma sync_raised self function_name request_data stdout stderr w e :
  lambda_runner self function_name request_data = Raised e ->
  e <> FunctionNotFound ->
  _invoke_sync_request get_lambda_output self function_name request_data
    stdout stderr w
  = (Raised e, extend w [EvInvoke function_name request_data stderr]).
Proof.
  intros Hrun He. unfold _invoke_sync_request. rewrite invoke_eq, Hrun.
  destruct e; try reflexivity. congruence.
Qed.

Lemma lambda_headers_content_type is_error rv body status :
  rv = service_response body (lambda_headers is_error) status ->
  response_header rv "Content-Type" = Some (HStr "application/json").
Proof. intros ->. destruct is_error; reflexivity. Qed.

Lemma lambda_headers_function_error is_error rv body status :
  rv = service_response body (lambda_headers is_error) status ->
  response_header rv "x-amz-function-error"
  = if is_error then Some (HStr "Unhandled") else None.
Proof. intros ->. destruct is_error; reflexivity. Qed.

(** C3: in the synchronous path, once the execution engine has
    returned, the parsed outcome fixes the response.  The status is 200,
    the body is the captured response and [Content-Type] is
    [application/json]; the header [x-amz-function-error] is [Unhandled]
    when the outcome is a user error and is absent otherwise. *)
Theorem sync_response_by_outcome self function_name request_data stdout stderr w
    written lambda_response lambda_logs is_user_error :
  lambda_runner self function_name request_data = Returned written ->
  get_lambda_output (stdout ++ written)
  = Returned (lambda_response, lambda_logs, is_user_error) ->
  exists rv w',
    _invoke_sync_request get_lambda_output self function_name request_data
      stdout stderr w = (Returned rv, w')
    /\ status_code rv = 200%Z
    /\ body rv = Some (Text lambda_response)
    /\ response_header rv "Content-Type" = Some (HStr "application/json")
    /\ response_header rv "x-amz-function-error"
       = (if is_user_error then Some (HStr "Unhandled") else None).
Proof.
  intros Hrun Hout.
  eexists _, _. split.
  - apply (sync_returned _ _ _ _ _ _ _ _ _ _ Hrun Hout).
  - simpl. repeat split.
    + eapply lambda_headers_content_type; reflexivity.
    + eapply lambda_headers_function_error; reflexivity.
Qed.

(** C4: the synchronous path answers with a 404 exactly when the
    execution engine raises [FunctionNotFound]; the answer is then the
    resource-not-found error whose message names the function, and the
    only effect of the call is the invocation itself: the output is
    not parsed and nothing is written to the error sink. *)
Theorem sync_not_found_iff self function_name request_data stdout stderr w :
  (lambda_runner self function_name request_data = Raised FunctionNotFound
   <-> exists rv w',
         _invoke_sync_request get_lambda_output self function_name request_data
           stdout stderr w = (Returned rv, w')
         /\ status_code rv = 404%Z)
  /\ (lambda_runner self function_name request_data = Raised FunctionNotFound ->
      _invoke_sync_request get_lambda_output self function_name request_data
        stdout stderr w
      = (Returned (LambdaErrorResponses.resource_not_found function_name),
         extend w [EvInvoke function_name request_data stderr])
      /\ status_code (LambdaErrorResponses.resource_not_found function_name)
         = 404%Z
      /\ body (LambdaErrorResponses.resource_not_found function_name)
         = Some (ErrorJson {| errorType := ResourceNotFound;
                              errorMessage := function_name |})).
Proof.
  split.
  - split.
    + intros Hrun. eexists _, _. split.
      * apply sync_not_found, Hrun.
      * reflexivity.
    + intros (rv & w' & Hsync & Hstatus).
      destruct (lambda_runner self function_name request_data)
        as [written|e] eqn:Hrun.
      * destruct (get_lambda_output (stdout ++ written))
          as [[[lambda_response lambda_logs] is_error]|e] eqn:Hout.
        -- rewrite (sync_returned _ _ _ _ _ _ _ _ _ _ Hrun Hout) in Hsync.
           injection Hsync as <- _. discriminate Hstatus.
        -- rewrite (sync_parser_raised _ _ _ _ _ _ _ _ Hrun Hout) in Hsync.
           discriminate Hsync.
      * destruct e; try reflexivity;
          rewrite (sync_raised _ _ _ _ _ _ _ Hrun) in Hsync; congruence.
  - intros Hrun. split; [apply sync_not_found, Hrun | split; reflexivity].
Qed.

(** C8: in the synchronous path, when the parsed logs are not empty and
    an error sink [s] was given, the logs are written to [s] after the
    output is parsed, whether or not the outcome is a user error; the
    response is the one the parsed response and flag fix, the same as
    without a sink. *)
Theorem sync_logs_to_stderr self function_name request_data stdout s w
    written lambda_response lambda_logs is_user_error :
  lambda_runner self function_name request_data = Returned written ->
  get_lambda_output (stdout ++ written)
  = Returned (lambda_response, Some lambda_logs, is_user_error) ->
  lambda_logs <> [] ->
  let rv := service_response (Some (Text lambda_response))
              (lambda_headers is_user_error) 200%Z in
  _invoke_sync_request get_lambda_output self function_name request_data
    stdout (Some s) w
  = (Returned rv,
     extend w [EvInvoke function_name request_data (Some s);
               EvGetLambdaOutput (stdout ++ written);
               EvWrite s lambda_logs])
  /\ _invoke_sync_request get_lambda_output self function_name request_data
       stdout None w
     = (Returned rv,
        extend w [EvInvoke function_name request_data None;
                  EvGetLambdaOutput (stdout ++ written)]).
Proof.
  intros Hrun Hout Hlogs rv.
  rewrite !(sync_returned _ _ _ _ _ _ _ _ _ _ Hrun Hout). simpl.
  destruct lambda_logs as [|c cs]; [congruence|]. split; reflexivity.
Qed.

(** *** The asynchronous path *)

Lemma async_eq self function_name request_data stdout stderr w :
  _invoke_async_request uuid4_gen self function_name request_data
    stdout stderr w
  = (Returned (service_response None
                 [("x-amzn-requestid"%string,
                   HUuid (uuid4_gen (uuid_calls w)))] 202%Z),
     {| uuid_calls := S (uuid_calls w);
        events := events w
                  ++ [EvUuid4 (uuid4_gen (uuid_calls w));
                      EvThreadStart
                        {| target := Some Method_invoke_sync_request;
                           thread_function_name := function_name;
                           thread_request_data := request_data;
                           thread_stdout := stdout;
                           thread_stderr := stderr;
                           daemon := true |}] |}).
Proof.
  unfold _invoke_async_request, bind, uuid4, Thread_start, emit, ret. simpl.
  by rewrite <- app_assoc.
Qed.


(** *** Validation *)

Lemma get_default {V : Type} (d : gmap string V) key (dflt : V) :
  CaseInsensitiveDict.get d key dflt = default dflt (d !! lower key).
Proof. unfold CaseInsensitiveDict.get. destruct (d !! lower key); reflexivity. Qed.

Lemma body_decodes r :
  get_data r = [] \/ is_Some (utf8_decode (get_data r)) ->
  is_Some (utf8_decode (default_body (get_data r))).
Proof.
  intros [-> | H]; [by eexists|].
  destruct (get_data r); [by eexists | exact H].
Qed.

Lemma validate_request_raises r :
  utf8_decode (default_body (get_data r)) = None ->
  validate_request json_loads r = Raised UnicodeDecodeError.
Proof. intros H. unfold validate_request, decode. by rewrite H. Qed.

Lemma validate_request_decoded r t :
  utf8_decode (default_body (get_data r)) = Some t ->
  validate_request json_loads r
  = match json_loads t with
    | Raised e =>
      if is_ValueError e
      then Returned (first_failure json_loads checks r)
      else Raised e
    | Returned _ => Returned (first_failure json_loads checks r)
    end.
Proof.
  intros H. unfold validate_request, decode. rewrite H.
  unfold checks, first_failure, check_holds, rejection, request_header,
    has_args, supported_invocation_type.
  rewrite H, !get_default.
  generalize (CaseInsensitiveDict.of_list (headers r) !! lower "X-Amz-Log-Type").
  generalize (CaseInsensitiveDict.of_list (headers r)
                !! lower "X-Amz-Invocation-Type").
  intros invocation_type log_type.
  destruct (json_loads t) as [[]|e]; [|reflexivity].
  destruct (args r); [|reflexivity].
  destruct log_type as [log_type|], invocation_type as [invocation_type|];
    cbv [default from_option id]; simpl;
    repeat match goal with
           | |- context [String.eqb ?a ?b] => destruct (String.eqb a b); simpl
           end; reflexivity.
Qed.

(** A request that validation lets pass or refuses, rather than
    raising, has its verdict from the four checks. *)
Lemma validate_request_returned r verdict :
  validate_request json_loads r = Returned verdict ->
  verdict = first_failure json_loads checks r.
Proof.
  intros Hv.
  destruct (utf8_decode (default_body (get_data r))) as [t|] eqn:Ht.
  - rewrite (validate_request_decoded r t Ht) in Hv.
    destruct (json_loads t) as [[]|e]; [congruence|].
    destruct (is_ValueError e); congruence.
  - rewrite (validate_request_raises r Ht) in Hv. discriminate Hv.
Qed.

Lemma first_failure_none cs r :
  first_failure json_loads cs r = None
  <-> forall c, c ∈ cs -> check_holds json_loads c r = true.
Proof.
  induction cs as [|c cs IH]; simpl.
  - split; [intros _ c Hc; inversion Hc | reflexivity].
  - destruct (check_holds json_loads c r) eqn:Hc.
    + rewrite IH. split.
      * intros H c' Hc'. apply elem_of_cons in Hc' as [-> | Hc']; auto.
      * intros H c' Hc'. apply H. by right.
    + split; [discriminate|].
      intros H. specialize (H c). rewrite Hc in H.
      discriminate H. by left.
Qed.

(** X13: for every request whose body is empty or valid UTF-8 and on
    whose text [json.loads] raises nothing but [ValueError],
    validation applies the four checks in their order, returns the
    rejection of the first check that fails and returns [None] exactly
    when the four checks hold. *)
Theorem validate_request_first_failure r :
  get_data r = [] \/ is_Some (utf8_decode (get_data r)) ->
  (forall t e,
     utf8_decode (default_body (get_data r)) = Some t ->
     json_loads t = Raised e -> is_ValueError e = true) ->
  validate_request json_loads r = Returned (first_failure json_loads checks r)
  /\ (validate_request json_loads r = Returned None
      <-> forall c, c ∈ checks -> check_holds json_loads c r = true).
Proof.
  intros Hbody Hjson. destruct (body_decodes r Hbody) as [t Ht].
  assert (Hv : validate_request json_loads r
               = Returned (first_failure json_loads checks r)).
  { rewrite (validate_request_decoded r t Ht).
    destruct (json_loads t) as [[]|e] eqn:Hj; [reflexivity|].
    by rewrite (Hjson t e Ht Hj). }
  rewrite Hv. split; [reflexivity|].
  rewrite <- first_failure_none. split; congruence.
Qed.

(** X14: for every request that carries a query parameter, whose body
    is empty or valid UTF-8 and on whose text [json.loads] raises
    nothing but [ValueError], validation returns an invalid-request
    response of status 400, whatever the headers: with the message of
    the JSON check when the text does not parse, and with the message
    of the query parameters when it does. *)
Theorem query_parameters_rejected r :
  args r <> [] ->
  get_data r = [] \/ is_Some (utf8_decode (get_data r)) ->
  (forall t e,
     utf8_decode (default_body (get_data r)) = Some t ->
     json_loads t = Raised e -> is_ValueError e = true) ->
  exists t,
    utf8_decode (default_body (get_data r)) = Some t
    /\ status_code (LambdaErrorResponses.invalid_request_content
                      (match json_loads t with
                       | Returned _ => query_error_message
                       | Raised _ => parse_error_message
                       end)) = 400%Z
    /\ validate_request json_loads r
       = Returned (Some (LambdaErrorResponses.invalid_request_content
                           (match json_loads t with
                            | Returned _ => query_error_message
                            | Raised _ => parse_error_message
                            end)))
    /\ forall request_headers,
         validate_request json_loads (with_headers r request_headers)
         = Returned (Some (LambdaErrorResponses.invalid_request_content
                             (match json_loads t with
                              | Returned _ => query_error_message
                              | Raised _ => parse_error_message
                              end))).
Proof.
  intros Hargs Hbody Hjson. destruct (body_decodes r Hbody) as [t Ht].
  assert (Hall : forall request_headers,
             validate_request json_loads (with_headers r request_headers)
             = Returned (Some (LambdaErrorResponses.invalid_request_content
                                 (match json_loads t with
                                  | Returned _ => query_error_message
                                  | Raised _ => parse_error_message
                                  end)))).
  { intros request_headers. unfold validate_request, decode, has_args.
    cbn [get_data args headers with_headers]. rewrite Ht.
    destruct (json_loads t) as [[]|e] eqn:Hj.
    - destruct (args r); [congruence | reflexivity].
    - by rewrite (Hjson t e Ht Hj). }
  exists t. split; [exact Ht|]. split; [reflexivity|].
  split; [|exact Hall].
  assert (Hr : with_headers r (headers r) = r) by (by destruct r).
  rewrite <- Hr at 1. apply Hall.
Qed.

(** C10: a body that is not empty and not valid UTF-8 makes
    [validate_request] raise [UnicodeDecodeError] before the JSON check,
    so it does not return the 400 response of that check; the
    application answers through the handler registered for 500, the
    generic service exception, without any effect of its own. *)
Theorem undecodable_body_is_service_exception self r w :
  get_data r <> [] ->
  utf8_decode (get_data r) = None ->
  validate_request json_loads r = Raised UnicodeDecodeError
  /\ validate_request json_loads r
     <> Returned (Some (LambdaErrorResponses.invalid_request_content
                          parse_error_message))
  /\ wsgi_app json_loads uuid4_gen get_lambda_output self r w
     = (LambdaErrorResponses.generic_service_exception, w)
  /\ status_code LambdaErrorResponses.generic_service_exception = 500%Z.
Proof.
  intros Hne Hdec.
  assert (H : validate_request json_loads r = Raised UnicodeDecodeError).
  { apply validate_request_raises. destruct (get_data r); [congruence|exact Hdec]. }
  split; [exact H|]. split; [rewrite H; discriminate|].
  split; [|reflexivity]. unfold wsgi_app. by rewrite H.
Qed.

(** *** Dispatch *)

Lemma handler_decoded self function_name r t w :
  utf8_decode (default_body (get_data r)) = Some t ->
  _invoke_request_handler uuid4_gen get_lambda_output self function_name r w
  = if String.eqb (default "RequestResponse"%string
                     (request_header r invocation_type_header)) "Event"
    then _invoke_async_request uuid4_gen self function_name t [] (stderr self) w
    else _invoke_sync_request get_lambda_output self function_name t []
           (stderr self) w.
Proof.
  intros H. unfold _invoke_request_handler, decode. rewrite H, get_default.
  reflexivity.
Qed.

Lemma validated_decodes r :
  validate_request json_loads r = Returned None ->
  exists t, utf8_decode (default_body (get_data r)) = Some t.
Proof.
  intros H. destruct (utf8_decode (default_body (get_data r))) as [t|] eqn:Ht.
  - by exists t.
  - rewrite (validate_request_raises r Ht) in H. discriminate H.
Qed.

Lemma validated_invocation_type r :
  validate_request json_loads r = Returned None ->
  check_holds json_loads InvocationTypeSupported r = true.
Proof.
  intros H.
  assert (Hnone : first_failure json_loads checks r = None)
    by (symmetry; exact (validate_request_returned r None H)).
  apply (proj1 (first_failure_none checks r) Hnone).
  unfold checks. set_solver.
Qed.

(** C1: for a validated request the handler reads
    [X-Amz-Invocation-Type] with default [RequestResponse]; when the
    header is [Event] it takes the asynchronous path, and otherwise,
    the header then being [RequestResponse] or absent, the synchronous
    path, in both cases with the decoded body and a fresh output
    buffer. *)
Theorem handler_dispatch self function_name r w :
  validate_request json_loads r = Returned None ->
  exists request_data,
    decode (default_body (get_data r)) = Returned request_data
    /\ (request_header r invocation_type_header = Some "Event"%string ->
        _invoke_request_handler uuid4_gen get_lambda_output self function_name r w
        = _invoke_async_request uuid4_gen self function_name request_data []
            (stderr self) w)
    /\ (request_header r invocation_type_header <> Some "Event"%string ->
        default "RequestResponse"%string
          (request_header r invocation_type_header) = "RequestResponse"%string
        /\ _invoke_request_handler uuid4_gen get_lambda_output self
             function_name r w
           = _invoke_sync_request get_lambda_output self function_name
               request_data [] (stderr self) w)
    /\ (request_header r invocation_type_header = None ->
        _invoke_request_handler uuid4_gen get_lambda_output self function_name r w
        = _invoke_sync_request get_lambda_output self function_name
            request_data [] (stderr self) w).
Proof.
  intros Hvalid. destruct (validated_decodes r Hvalid) as [t Ht].
  pose proof (validated_invocation_type r Hvalid) as Hsupported.
  unfold check_holds in Hsupported. fold invocation_type_header in Hsupported.
  exists t. split; [unfold decode; by rewrite Ht|].
  rewrite (handler_decoded _ _ _ _ _ Ht).
  destruct (request_header r invocation_type_header) as [v|]; simpl.
  - destruct (String.eqb v "Event") eqn:Hev.
    + apply String.eqb_eq in Hev as ->.
      split; [reflexivity|]. split; [congruence | discriminate].
    + simpl in Hsupported. apply String.eqb_eq in Hsupported as ->.
      split; [discriminate|]. split; [by split | discriminate].
  - split; [discriminate|]. split; [by split | reflexivity].
Qed.

Lemma sync_invokes self function_name request_data stdout stderr w :
  exists out rest,
    _invoke_sync_request get_lambda_output self function_name request_data
      stdout stderr w
    = (out, extend w (EvInvoke function_name request_data stderr :: rest)).
Proof.
  destruct (lambda_runner self function_name request_data) as [written|e] eqn:Hrun.
  - destruct (get_lambda_output (stdout ++ written))
      as [[[lambda_response lambda_logs] is_error]|e] eqn:Hout.
    + eexists _, _. by apply sync_returned.
    + eexists _, _. by apply sync_parser_raised.
  - destruct e.
    + eexists _, _. apply sync_not_found, Hrun.
    + eexists _, _. by apply sync_raised.
    + eexists _, _. by apply sync_raised.
    + eexists _, _. by apply sync_raised.
Qed.

Lemma Thread_run_eq self t w :
  target t = Some Method_invoke_sync_request ->
  Thread_run get_lambda_output self t w
  = match _invoke_sync_request get_lambda_output self
            (thread_function_name t) (thread_request_data t)
            (thread_stdout t) (thread_stderr t) w with
    | (Returned _, w') => (Returned (), w')
    | (Raised e, w') => (Raised e, w')
    end.
Proof. intros Htarget. unfold Thread_run. rewrite Htarget. reflexivity. Qed.

(** C7: a request with an empty body is validated and dispatched as the
    request whose body is [{}]: the payload is the two-character text
    [{}], the synchronous path invokes the execution engine with it,
    and the asynchronous path hands it to the thread it starts, which
    invokes the engine with it when it runs. *)
Theorem empty_body_is_empty_object self function_name r w :
  get_data r = [] ->
  decode (default_body (get_data r)) = Returned (text_of_string "{}")
  /\ length (text_of_string "{}") = 2%nat
  /\ validate_request json_loads r
     = validate_request json_loads (with_data r empty_json_bytes)
  /\ _invoke_request_handler uuid4_gen get_lambda_output self function_name r w
     = _invoke_request_handler uuid4_gen get_lambda_output self function_name
         (with_data r empty_json_bytes) w
  /\ (request_header r invocation_type_header <> Some "Event"%string ->
      exists out rest,
        _invoke_request_handler uuid4_gen get_lambda_output self function_name r w
        = (out, extend w (EvInvoke function_name (text_of_string "{}")
                            (stderr self) :: rest)))
  /\ (request_header r invocation_type_header = Some "Event"%string ->
      exists rv request_id thread w',
        _invoke_request_handler uuid4_gen get_lambda_output self function_name r w
        = (Returned rv, w')
        /\ events w' = events w ++ [EvUuid4 request_id; EvThreadStart thread]
        /\ thread_function_name thread = function_name
        /\ thread_request_data thread = text_of_string "{}"
        /\ forall w2, exists out rest,
             Thread_run get_lambda_output self thread w2
             = (out, extend w2 (EvInvoke function_name (text_of_string "{}")
                                  (stderr self) :: rest))).
Proof.
  intros Hempty.
  assert (Ht : utf8_decode (default_body (get_data r))
               = Some (text_of_string "{}")) by (by rewrite Hempty).
  split; [unfold decode; by rewrite Ht|]. split; [reflexivity|].
  split; [unfold validate_request; simpl; by rewrite Hempty|].
  split; [unfold _invoke_request_handler; simpl; by rewrite Hempty|].
  rewrite (handler_decoded _ _ _ _ _ Ht). split.
  - intros Hsync.
    destruct (request_header r invocation_type_header) as [v|]; simpl.
    + destruct (String.eqb v "Event") eqn:Hev.
      * apply String.eqb_eq in Hev. congruence.
      * apply sync_invokes.
    + apply sync_invokes.
  - intros ->.
    assert (Hev : String.eqb (default "RequestResponse"%string
                                (Some "Event"%string)) "Event" = true)
      by reflexivity.
    rewrite Hev, async_eq.
    eexists _, _, _, _. split; [reflexivity|].
    split; [reflexivity|]. split; [reflexivity|]. split; [reflexivity|].
    intros w2. rewrite Thread_run_eq by reflexivity.
    cbn [thread_function_name thread_request_data thread_stdout thread_stderr].
    destruct (sync_invokes self function_name (text_of_string "{}") []
                (stderr self) w2) as (out & rest & ->).
    destruct out; eexists _, _; reflexivity.
Qed.

(** C9: asynchronous dispatch of a function the execution engine does
    not know returns 202 with the generated identifier, as for any
    service, and its only effects are the draw of the identifier and
    the start of the thread.  [FunctionNotFound] is raised when the
    thread runs: there [_invoke_sync_request] returns the 404 response
    and [Thread.run] drops it. *)
Theorem async_unknown_function self function_name request_data stdout stderr w :
  lambda_runner self function_name request_data = Raised FunctionNotFound ->
  exists rv thread w',
    _invoke_async_request uuid4_gen self function_name request_data
      stdout stderr w = (Returned rv, w')
    /\ status_code rv = 202%Z
    /\ response_header rv "x-amzn-requestid"
       = Some (HUuid (uuid4_gen (uuid_calls w)))
    /\ events w'
       = events w ++ [EvUuid4 (uuid4_gen (uuid_calls w)); EvThreadStart thread]
    /\ (forall self',
          _invoke_async_request uuid4_gen self' function_name request_data
            stdout stderr w = (Returned rv, w'))
    /\ (forall w2,
          _invoke_sync_request get_lambda_output self
            (thread_function_name thread) (thread_request_data thread)
            (thread_stdout thread) (thread_stderr thread) w2
          = (Returned (LambdaErrorResponses.resource_not_found function_name),
             extend w2 [EvInvoke function_name request_data stderr])
          /\ Thread_run get_lambda_output self thread w2
             = (Returned (),
                extend w2 [EvInvoke function_name request_data stderr])).
Proof.
  intros Hrun. eexists _, _, _. split; [apply async_eq|].
  split; [reflexivity|]. split; [reflexivity|]. split; [reflexivity|].
  split; [intros self'; apply async_eq|].
  intros w2. rewrite Thread_run_eq by reflexivity.
  cbn [thread_function_name thread_request_data thread_stdout thread_stderr].
  rewrite (sync_not_found _ _ _ _ _ _ Hrun). split; reflexivity.
Qed.

End Properties.

(** ** The properties at concrete requests *)

Lemma handler_dispatch_witness :
  validate_request Sample.json_loads SampleService.event_request = Returned None
  /\ exists request_data,
       decode (default_body (get_data SampleService.event_request))
       = Returned request_data
       /\ (request_header SampleService.event_request invocation_type_header
           = Some "Event"%string ->
           _invoke_request_handler Sample.uuid4_gen Sample.get_lambda_output
             SampleService.service "foo" SampleService.event_request
             SampleService.world0
           = _invoke_async_request Sample.uuid4_gen SampleService.service "foo"
               request_data [] (stderr SampleService.service)
               SampleService.world0)
       /\ (request_header SampleService.event_request invocation_type_header
           <> Some "Event"%string ->
           default "RequestResponse"%string
             (request_header SampleService.event_request invocation_type_header)
           = "RequestResponse"%string
           /\ _invoke_request_handler Sample.uuid4_gen Sample.get_lambda_output
                SampleService.service "foo" SampleService.event_request
                SampleService.world0
              = _invoke_sync_request Sample.get_lambda_output
                  SampleService.service "foo" request_data []
                  (stderr SampleService.service) SampleService.world0)
       /\ (request_header SampleService.event_request invocation_type_header
           = None ->
           _invoke_request_handler Sample.uuid4_gen Sample.get_lambda_output
             SampleService.service "foo" SampleService.event_request
             SampleService.world0
           = _invoke_sync_request Sample.get_lambda_output
               SampleService.service "foo" request_data []
               (stderr SampleService.service) SampleService.world0).
Proof.
  split; [vm_compute; reflexivity|].
  apply (handler_dispatch Sample.json_loads Sample.uuid4_gen
           Sample.get_lambda_output SampleService.service "foo"
           SampleService.event_request SampleService.world0).
  vm_compute; reflexivity.
Defined.


Lemma sync_response_by_outcome_witness :
  lambda_runner SampleService.service "boom" (text_of_string "{}")
  = Returned SampleService.boom_output
  /\ Sample.get_lambda_output ([] ++ SampleService.boom_output)
     = Returned (SampleService.boom_response, Some SampleService.boom_logs,
                 true)
  /\ exists rv w',
       _invoke_sync_request Sample.get_lambda_output SampleService.service
         "boom" (text_of_string "{}") [] (Some (StreamId 2))
         SampleService.world0 = (Returned rv, w')
       /\ status_code rv = 200%Z
       /\ body rv = Some (Text SampleService.boom_response)
       /\ response_header rv "Content-Type" = Some (HStr "application/json")
       /\ response_header rv "x-amz-function-error" = Some (HStr "Unhandled").
Proof.
  split; [reflexivity|]. split; [vm_compute; reflexivity|].
  apply (sync_response_by_outcome Sample.get_lambda_output
           SampleService.service "boom" (text_of_string "{}") []
           (Some (StreamId 2)) SampleService.world0
           SampleService.boom_output SampleService.boom_response
           (Some SampleService.boom_logs) true);
    [reflexivity | vm_compute; reflexivity].
Defined.

Lemma sync_logs_to_stderr_witness :
  lambda_runner SampleService.service "foo" (text_of_string "{}")
  = Returned SampleService.foo_output
  /\ Sample.get_lambda_output ([] ++ SampleService.foo_output)
     = Returned (text_of_string "{}", Some SampleService.foo_logs, false)
  /\ SampleService.foo_logs <> []
  /\ _invoke_sync_request Sample.get_lambda_output SampleService.service
       "foo" (text_of_string "{}") [] (Some (StreamId 2)) SampleService.world0
     = (Returned (service_response (Some (Text (text_of_string "{}")))
                    (lambda_headers false) 200%Z),
        extend SampleService.world0
          [EvInvoke "foo" (text_of_string "{}") (Some (StreamId 2));
           EvGetLambdaOutput ([] ++ SampleService.foo_output);
           EvWrite (StreamId 2) SampleService.foo_logs])
  /\ _invoke_sync_request Sample.get_lambda_output SampleService.service
       "foo" (text_of_string "{}") [] None SampleService.world0
     = (Returned (service_response (Some (Text (text_of_string "{}")))
                    (lambda_headers false) 200%Z),
        extend SampleService.world0
          [EvInvoke "foo" (text_of_string "{}") None;
           EvGetLambdaOutput ([] ++ SampleService.foo_output)]).
Proof.
  split; [reflexivity|]. split; [vm_compute; reflexivity|].
  split; [discriminate|].
  apply (sync_logs_to_stderr Sample.get_lambda_output SampleService.service
           "foo" (text_of_string "{}") [] (StreamId 2) SampleService.world0
           SampleService.foo_output (text_of_string "{}")
           SampleService.foo_logs false);
    [reflexivity | vm_compute; reflexivity | discriminate].
Defined.

Lemma sample_json_loads_raises t e :
  Sample.json_loads t = Raised e -> is_ValueError e = true.
Proof.
  unfold Sample.json_loads. destruct (Sample.is_json t); [discriminate|].
  by intros [= <-].
Qed.

Lemma validate_request_first_failure_witness :
  (get_data SampleService.event_request = []
   \/ is_Some (utf8_decode (get_data SampleService.event_request)))
  /\ (forall t e,
        utf8_decode (default_body (get_data SampleService.event_request))
        = Some t ->
        Sample.json_loads t = Raised e -> is_ValueError e = true)
  /\ validate_request Sample.json_loads SampleService.event_request
     = Returned (first_failure Sample.json_loads checks
                   SampleService.event_request)
  /\ (validate_request Sample.json_loads SampleService.event_request
      = Returned None
      <-> forall c, c ∈ checks ->
            check_holds Sample.json_loads c SampleService.event_request = true).
Proof.
  split; [left; reflexivity|].
  split; [intros t e _; apply sample_json_loads_raises|].
  apply (validate_request_first_failure Sample.json_loads
           SampleService.event_request);
    [left; reflexivity | intros t e _; apply sample_json_loads_raises].
Defined.

Lemma query_parameters_rejected_witness :
  args SampleService.unparsable_with_query <> []
  /\ (get_data SampleService.unparsable_with_query = []
      \/ is_Some (utf8_decode (get_data SampleService.unparsable_with_query)))
  /\ (forall t e,
        utf8_decode (default_body (get_data SampleService.unparsable_with_query))
        = Some t ->
        Sample.json_loads t = Raised e -> is_ValueError e = true)
  /\ exists t,
       utf8_decode (default_body (get_data SampleService.unparsable_with_query))
       = Some t
       /\ status_code (LambdaErrorResponses.invalid_request_content
                         (match Sample.json_loads t with
                          | Returned _ => query_error_message
                          | Raised _ => parse_error_message
                          end)) = 400%Z
       /\ validate_request Sample.json_loads SampleService.unparsable_with_query
          = Returned (Some (LambdaErrorResponses.invalid_request_content
                              (match Sample.json_loads t with
                               | Returned _ => query_error_message
                               | Raised _ => parse_error_message
                               end)))
       /\ forall request_headers,
            validate_request Sample.json_loads
              (with_headers SampleService.unparsable_with_query request_headers)
            = Returned (Some (LambdaErrorResponses.invalid_request_content
                                (match Sample.json_loads t with
                                 | Returned _ => query_error_message
                                 | Raised _ => parse_error_message
                                 end))).
Proof.
  split; [discriminate|].
  split; [right; eexists; reflexivity|].
  split; [intros t e _; apply sample_json_loads_raises|].
  apply (query_parameters_rejected Sample.json_loads
           SampleService.unparsable_with_query);
    [discriminate | right; eexists; reflexivity
    | intros t e _; apply sample_json_loads_raises].
Defined.

Lemma empty_body_is_empty_object_witness :
  get_data SampleService.plain_request = []
  /\ decode (default_body (get_data SampleService.plain_request))
     = Returned (text_of_string "{}")
  /\ length (text_of_string "{}") = 2%nat
  /\ validate_request Sample.json_loads SampleService.plain_request
     = validate_request Sample.json_loads
         (with_data SampleService.plain_request empty_json_bytes)
  /\ _invoke_request_handler Sample.uuid4_gen Sample.get_lambda_output
       SampleService.service "foo" SampleService.plain_request
       SampleService.world0
     = _invoke_request_handler Sample.uuid4_gen Sample.get_lambda_output
         SampleService.service "foo"
         (with_data SampleService.plain_request empty_json_bytes)
         SampleService.world0
  /\ (request_header SampleService.plain_request invocation_type_header
      <> Some "Event"%string ->
      exists out rest,
        _invoke_request_handler Sample.uuid4_gen Sample.get_lambda_output
          SampleService.service "foo" SampleService.plain_request
          SampleService.world0
        = (out, extend SampleService.world0
                  (EvInvoke "foo" (text_of_string "{}")
                     (stderr SampleService.service) :: rest)))
  /\ (request_header SampleService.plain_request invocation_type_header
      = Some "Event"%string ->
      exists rv request_id thread w',
        _invoke_request_handler Sample.uuid4_gen Sample.get_lambda_output
          SampleService.service "foo" SampleService.plain_request
          SampleService.world0
        = (Returned rv, w')
        /\ events w'
           = events SampleService.world0
             ++ [EvUuid4 request_id; EvThreadStart thread]
        /\ thread_function_name thread = "foo"%string
        /\ thread_request_data thread = text_of_string "{}"
        /\ forall w2, exists out rest,
             Thread_run Sample.get_lambda_output SampleService.service thread w2
             = (out, extend w2 (EvInvoke "foo" (text_of_string "{}")
                                  (stderr SampleService.service) :: rest))).
Proof.
  split; [reflexivity|].
  apply (empty_body_is_empty_object Sample.json_loads Sample.uuid4_gen
           Sample.get_lambda_output SampleService.service "foo"
           SampleService.plain_request SampleService.world0).
  reflexivity.
Defined.

Lemma async_unknown_function_witness :
  lambda_runner SampleService.service "missing" (text_of_string "{}")
  = Raised FunctionNotFound
  /\ exists rv thread w',
       _invoke_async_request Sample.uuid4_gen SampleService.service "missing"
         (text_of_string "{}") [] (Some (StreamId 2)) SampleService.world0
       = (Returned rv, w')
       /\ status_code rv = 202%Z
       /\ response_header rv "x-amzn-requestid"
          = Some (HUuid (Sample.uuid4_gen (uuid_calls SampleService.world0)))
       /\ events w'
          = events SampleService.world0
            ++ [EvUuid4 (Sample.uuid4_gen (uuid_calls SampleService.world0));
                EvThreadStart thread]
       /\ (forall self',
             _invoke_async_request Sample.uuid4_gen self' "missing"
               (text_of_string "{}") [] (Some (StreamId 2)) SampleService.world0
             = (Returned rv, w'))
       /\ (forall w2,
             _invoke_sync_request Sample.get_lambda_output SampleService.service
               (thread_function_name thread) (thread_request_data thread)
               (thread_stdout thread) (thread_stderr thread) w2
             = (Returned (LambdaErrorResponses.resource_not_found "missing"),
                extend w2 [EvInvoke "missing" (text_of_string "{}")
                             (Some (StreamId 2))])
             /\ Thread_run Sample.get_lambda_output SampleService.service
                  thread w2
                = (Returned (),
                   extend w2 [EvInvoke "missing" (text_of_string "{}")
                                (Some (StreamId 2))])).
Proof.
  split; [reflexivity|].
  apply (async_unknown_function Sample.uuid4_gen Sample.get_lambda_output
           SampleService.service "missing" (text_of_string "{}") []
           (Some (StreamId 2)) SampleService.world0).
  reflexivity.
Defined.

Lemma undecodable_body_is_service_exception_witness :
  get_data SampleService.undecodable <> []
  /\ utf8_decode (get_data SampleService.undecodable) = None
  /\ validate_request Sample.json_loads SampleService.undecodable
     = Raised UnicodeDecodeError
  /\ validate_request Sample.json_loads SampleService.undecodable
     <> Returned (Some (LambdaErrorResponses.invalid_request_content
                          parse_error_message))
  /\ wsgi_app Sample.json_loads Sample.uuid4_gen Sample.get_lambda_output
       SampleService.service SampleService.undecodable SampleService.world0
     = (LambdaErrorResponses.generic_service_exception, SampleService.world0)
  /\ status_code LambdaErrorResponses.generic_service_exception = 500%Z.
Proof.
  split; [discriminate|]. split; [reflexivity|].
  apply (undecodable_body_is_service_exception Sample.json_loads
           Sample.uuid4_gen Sample.get_lambda_output SampleService.service
           SampleService.undecodable SampleService.world0);
    [discriminate | reflexivity].
Defined.

(** C5: the code at the body [b'\xff'].  The body breaks the first
    rule, whose rejection is the 400 response, but [validate_request]
    returns nothing: the decode of line 84 raises
    [UnicodeDecodeError], an exception the [except ValueError] of
    line 88 would catch were the decode inside the [try], and the
    application answers 500. *)
Lemma validate_request_undecodable_raises :
  (forall json_loads,
     check_holds json_loads BodyIsJson SampleService.undecodable = false)
  /\ (forall json_loads,
        first_failure json_loads checks SampleService.undecodable
        = Some (LambdaErrorResponses.invalid_request_content
                  parse_error_message))
  /\ (forall json_loads,
        validate_request json_loads SampleService.undecodable
        = Raised UnicodeDecodeError)
  /\ is_ValueError UnicodeDecodeError = true
  /\ (forall json_loads uuid4_gen get_lambda_output self w,
        wsgi_app json_loads uuid4_gen get_lambda_output self
          SampleService.undecodable w
        = (LambdaErrorResponses.generic_service_exception, w))
  /\ status_code LambdaErrorResponses.generic_service_exception = 500%Z.
Proof. repeat split. Qed.

(** C6: the code at the query string [?a=1] with the body [b'\xff'].
    The request carries a query parameter, but [validate_request]
    returns no response at all: the decode of line 84 raises
    [UnicodeDecodeError] before any check, and the application answers
    500 instead of 400. *)
Lemma query_parameters_undecodable_raises :
  args SampleService.undecodable_with_query = [("a", "1")]%string
  /\ (forall json_loads,
        validate_request json_loads SampleService.undecodable_with_query
        = Raised UnicodeDecodeError)
  /\ is_ValueError UnicodeDecodeError = true
  /\ (forall json_loads uuid4_gen get_lambda_output self w,
        wsgi_app json_loads uuid4_gen get_lambda_output self
          SampleService.undecodable_with_query w
        = (LambdaErrorResponses.generic_service_exception, w))
  /\ status_code LambdaErrorResponses.generic_service_exception = 500%Z
  /\ status_code (LambdaErrorResponses.invalid_request_content
                    query_error_message) = 400%Z.
Proof. repeat split. Qed.

(** ** The decoder and the scenarios of the specification, evaluated *)

Example utf8_decode_braces :
  utf8_decode empty_json_bytes = Some (text_of_string "{}").
Proof. reflexivity. Qed.

Example utf8_decode_two_bytes : utf8_decode [xc3; xa9]%byte = Some [0xE9].
Proof. reflexivity. Qed.

Example utf8_decode_three_bytes :
  utf8_decode [xe2; x82; xac]%byte = Some [0x20AC].
Proof. reflexivity. Qed.

Example utf8_decode_four_bytes :
  utf8_decode [xf0; x9f; x98; x80]%byte = Some [0x1F600].
Proof. reflexivity. Qed.

Example utf8_decode_overlong : utf8_decode [xc0; x80]%byte = None.
Proof. reflexivity. Qed.

Example utf8_decode_surrogate : utf8_decode [xed; xa0; x80]%byte = None.
Proof. reflexivity. Qed.

Example utf8_decode_too_large :
  utf8_decode [xf4; x90; x80; x80]%byte = None.
Proof. reflexivity. Qed.

Example utf8_decode_truncated : utf8_decode [xe2; x82]%byte = None.
Proof. reflexivity. Qed.

Example utf8_decode_stray_continuation : utf8_decode [x80]%byte = None.
Proof. reflexivity. Qed.

Example lower_header : lower "X-Amz-Log-Type" = "x-amz-log-type"%string.
Proof. reflexivity. Qed.

(** Scenario A: empty body, no headers: [foo] runs with [{}] and the
    answer is 200 with its output. *)
Example scenario_a :
  wsgi_app Sample.json_loads Sample.uuid4_gen Sample.get_lambda_output
    SampleService.service SampleService.plain_request SampleService.world0
  = (service_response (Some (Text (text_of_string "{}")))
       [json_content_type] 200%Z,
     extend SampleService.world0
       [EvInvoke "foo" (text_of_string "{}") (Some (StreamId 2));
        EvGetLambdaOutput SampleService.foo_output;
        EvWrite (StreamId 2) SampleService.foo_logs]).
Proof. vm_compute. reflexivity. Qed.

(** Scenario B: the same with [X-Amz-Invocation-Type: Event]: 202, no
    body, the identifier in [x-amzn-requestid], the engine not yet
    invoked. *)
Example scenario_b :
  wsgi_app Sample.json_loads Sample.uuid4_gen Sample.get_lambda_output
    SampleService.service SampleService.event_request SampleService.world0
  = (service_response None [("x-amzn-requestid"%string, HUuid 0)] 202%Z,
     {| uuid_calls := 1;
        events := [EvUuid4 0;
                   EvThreadStart
                     {| target := Some Method_invoke_sync_request;
                        thread_function_name := "foo";
                        thread_request_data := text_of_string "{}";
                        thread_stdout := [];
                        thread_stderr := Some (StreamId 2);
                        daemon := true |}] |}).
Proof. vm_compute. reflexivity. Qed.

(** Scenario C: an unknown function: 404, the message names it. *)
Example scenario_c :
  wsgi_app Sample.json_loads Sample.uuid4_gen Sample.get_lambda_output
    SampleService.service (SampleService.post "missing" [] [] [])
    SampleService.world0
  = (LambdaErrorResponses.resource_not_found "missing",
     extend SampleService.world0
       [EvInvoke "missing" (text_of_string "{}") (Some (StreamId 2))]).
Proof. vm_compute. reflexivity. Qed.

(** Scenario D: a user error: 200 with [x-amz-function-error]. *)
Example scenario_d :
  (wsgi_app Sample.json_loads Sample.uuid4_gen Sample.get_lambda_output
     SampleService.service (SampleService.post "boom" [] [] [])
     SampleService.world0).1
  = service_response (Some (Text SampleService.boom_response))
      [json_content_type; function_error_unhandled] 200%Z.
Proof. vm_compute. reflexivity. Qed.

(** Scenario E: a query string and a body that is not JSON: the 400
    response of the JSON check. *)
Example scenario_e :
  wsgi_app Sample.json_loads Sample.uuid4_gen Sample.get_lambda_output
    SampleService.service SampleService.unparsable_with_query
    SampleService.world0
  = (LambdaErrorResponses.invalid_request_content parse_error_message,
     SampleService.world0).
Proof. vm_compute. reflexivity. Qed.

(** An engine failure other than [FunctionNotFound] escapes the
    handler and is answered by the 500 handler. *)
Example engine_failure :
  (wsgi_app Sample.json_loads Sample.uuid4_gen Sample.get_lambda_output
     SampleService.service (SampleService.post "crash" [] [] [])
     SampleService.world0).1
  = LambdaErrorResponses.generic_service_exception.
Proof. vm_compute. reflexivity. Qed.

(** ** Further properties of the validator, the dispatcher and the
    application *)

Lemma lower_log_type : lower "X-Amz-Log-Type" = "x-amz-log-type"%string.
Proof. reflexivity. Qed.

Lemma lower_invocation_type :
  lower "X-Amz-Invocation-Type" = "x-amz-invocation-type"%string.
Proof. reflexivity. Qed.

Lemma of_list_snoc {V : Type} (items : list (string * V)) name value :
  CaseInsensitiveDict.of_list (items ++ [(name, value)])
  = <[lower name := value]> (CaseInsensitiveDict.of_list items).
Proof. unfold CaseInsensitiveDict.of_list. by rewrite foldl_snoc. Qed.

Lemma get_snoc_other {V : Type} (items : list (string * V)) name value key
    (dflt : V) :
  lower name <> lower key ->
  CaseInsensitiveDict.get (CaseInsensitiveDict.of_list (items ++ [(name, value)]))
    key dflt
  = CaseInsensitiveDict.get (CaseInsensitiveDict.of_list items) key dflt.
Proof.
  intros Hne. rewrite !get_default, of_list_snoc.
  by rewrite lookup_insert_ne.
Qed.

Lemma utf8_decode_ascii bs :
  forallb is_ascii_byte bs = true -> utf8_decode bs = Some (map Byte.to_N bs).
Proof.
  induction bs as [|b bs IH]; [reflexivity|].
  cbn [forallb utf8_decode map]. intros H.
  apply andb_prop in H as [Hb Hbs]. unfold is_ascii_byte in Hb.
  rewrite Hb, (IH Hbs). reflexivity.
Qed.

(** *** The decoder accepts encodings only *)

Lemma byte_of_to_N b : byte_of_N (Byte.to_N b) = b.
Proof. unfold byte_of_N. by rewrite Byte.of_to_N. Qed.

Lemma continuation_inv b :
  is_continuation b = true ->
  continuation_bits b < 64 /\ byte_of_N (0x80 + continuation_bits b) = b.
Proof.
  unfold is_continuation, continuation_bits. intros H.
  apply andb_prop in H as [H1 H2]. apply N.leb_le in H1, H2.
  split; [lia|].
  replace (0x80 + (Byte.to_N b - 0x80)) with (Byte.to_N b) by lia.
  apply byte_of_to_N.
Qed.

Lemma fmap_cons_Some (c : N) (o : option text) t :
  cons c <$> o = Some t -> exists t', o = Some t' /\ t = c :: t'.
Proof. destruct o as [t'|]; [|discriminate]. intros [= <-]. by exists t'. Qed.

Lemma split_bits q r : r < 64 -> (q * 64 + r) / 64 = q /\ (q * 64 + r) mod 64 = r.
Proof.
  intros Hr. split.
  - symmetry. apply (N.div_unique _ 64 q r); lia.
  - symmetry. apply (N.mod_unique _ 64 q r); lia.
Qed.

Lemma utf8_decode_inv n bs t :
  (length bs <= n)%nat ->
  utf8_decode bs = Some t ->
  utf8_encode t = bs /\ forallb is_scalar t = true.
Proof.
  revert bs t. induction n as [|n IH]; intros bs t Hlen.
  { destruct bs; [|simpl in Hlen; lia]. by intros [= <-]. }
  destruct bs as [|b0 rest]; [by intros [= <-]|].
  cbn [utf8_decode]. cbn [length] in Hlen.
  pose proof (byte_of_to_N b0) as Hb0.
  destruct (N.ltb_spec (Byte.to_N b0) 0x80) as [H1|H1].
  { intros H. apply fmap_cons_Some in H as (t' & Hrest & ->).
    destruct (IH rest t' ltac:(lia) Hrest) as [Henc Hsc].
    cbn [utf8_encode flat_map forallb]. fold (utf8_encode t').
    rewrite Henc, Hsc. unfold utf8_encode_char, is_scalar, is_surrogate.
    apply N.ltb_lt in H1 as H1'. rewrite H1', Hb0.
    split; [reflexivity|].
    replace (Byte.to_N b0 <=? 0x10FFFF) with true by (symmetry; apply N.leb_le; lia).
    replace (0xD800 <=? Byte.to_N b0) with false by (symmetry; apply N.leb_gt; lia).
    reflexivity. }
  destruct ((0xC0 <=? Byte.to_N b0) && (Byte.to_N b0 <? 0xE0)) eqn:H2.
  { apply andb_prop in H2 as [H2a H2b].
    apply N.leb_le in H2a. apply N.ltb_lt in H2b.
    destruct rest as [|b1 rest1]; [discriminate|].
    destruct (is_continuation b1) eqn:C1; [|discriminate].
    destruct (continuation_inv b1 C1) as [R1 B1].
    cbn [andb].
    destruct (N.leb_spec 0x80 ((Byte.to_N b0 - 0xC0) * 64 + continuation_bits b1))
      as [Hc|Hc]; [|discriminate].
    intros H. apply fmap_cons_Some in H as (t' & Hrest & ->).
    cbn [length] in Hlen.
    destruct (IH rest1 t' ltac:(lia) Hrest) as [Henc Hsc].
    cbn [utf8_encode flat_map forallb]. fold (utf8_encode t').
    rewrite Henc, Hsc.
    destruct (split_bits (Byte.to_N b0 - 0xC0) _ R1) as [D1 M1].
    set (c := (Byte.to_N b0 - 0xC0) * 64 + continuation_bits b1) in *.
    unfold utf8_encode_char, is_scalar, is_surrogate.
    replace (c <? 0x80) with false by (symmetry; apply N.ltb_ge; lia).
    replace (c <? 0x800) with true by (symmetry; apply N.ltb_lt; lia).
    rewrite D1, M1, B1.
    replace (0xC0 + (Byte.to_N b0 - 0xC0)) with (Byte.to_N b0) by lia.
    rewrite Hb0. split; [reflexivity|].
    replace (c <=? 0x10FFFF) with true by (symmetry; apply N.leb_le; lia).
    replace (0xD800 <=? c) with false by (symmetry; apply N.leb_gt; lia).
    reflexivity. }
  clear H2.
  destruct ((0xE0 <=? Byte.to_N b0) && (Byte.to_N b0 <? 0xF0)) eqn:H3.
  { apply andb_prop in H3 as [H3a H3b].
    apply N.leb_le in H3a. apply N.ltb_lt in H3b.
    destruct rest as [|b1 [|b2 rest2]]; try discriminate.
    destruct (is_continuation b1) eqn:C1; [|discriminate].
    destruct (is_continuation b2) eqn:C2; [|discriminate].
    destruct (continuation_inv b1 C1) as [R1 B1].
    destruct (continuation_inv b2 C2) as [R2 B2].
    cbn [andb].
    set (c := (Byte.to_N b0 - 0xE0) * 4096 + continuation_bits b1 * 64
              + continuation_bits b2).
    destruct (N.leb_spec 0x800 c) as [Hc|Hc]; [|discriminate].
    cbn [andb].
    destruct (is_surrogate c) eqn:Hsur; [discriminate|]. cbn [negb].
    intros H. apply fmap_cons_Some in H as (t' & Hrest & ->).
    cbn [length] in Hlen.
    destruct (IH rest2 t' ltac:(lia) Hrest) as [Henc Hsc].
    cbn [utf8_encode flat_map forallb]. fold (utf8_encode t').
    rewrite Henc, Hsc.
    destruct (split_bits ((Byte.to_N b0 - 0xE0) * 64 + continuation_bits b1)
                _ R2) as [D2 M2].
    destruct (split_bits (Byte.to_N b0 - 0xE0) _ R1) as [D1 M1].
    replace (((Byte.to_N b0 - 0xE0) * 64 + continuation_bits b1) * 64
             + continuation_bits b2) with c in D2, M2 by (unfold c; lia).
    unfold utf8_encode_char, is_scalar. rewrite Hsur.
    replace (c <? 0x80) with false by (symmetry; apply N.ltb_ge; lia).
    replace (c <? 0x800) with false by (symmetry; apply N.ltb_ge; lia).
    replace (c <? 0x10000) with true
      by (symmetry; apply N.ltb_lt; unfold c; lia).
    rewrite D2, M2, D1, M1, B1, B2.
    replace (0xE0 + (Byte.to_N b0 - 0xE0)) with (Byte.to_N b0) by lia.
    rewrite Hb0. split; [reflexivity|].
    replace (c <=? 0x10FFFF) with true
      by (symmetry; apply N.leb_le; unfold c; lia).
    reflexivity. }
  clear H3.
  destruct ((0xF0 <=? Byte.to_N b0) && (Byte.to_N b0 <? 0xF8)) eqn:H4;
    [|discriminate].
  apply andb_prop in H4 as [H4a H4b].
  apply N.leb_le in H4a. apply N.ltb_lt in H4b.
  destruct rest as [|b1 [|b2 [|b3 rest3]]]; try discriminate.
  destruct (is_continuation b1) eqn:C1; [|discriminate].
  destruct (is_continuation b2) eqn:C2; [|discriminate].
  destruct (is_continuation b3) eqn:C3; [|discriminate].
  destruct (continuation_inv b1 C1) as [R1 B1].
  destruct (continuation_inv b2 C2) as [R2 B2].
  destruct (continuation_inv b3 C3) as [R3 B3].
  cbn [andb].
  set (c := (Byte.to_N b0 - 0xF0) * 262144 + continuation_bits b1 * 4096
            + continuation_bits b2 * 64 + continuation_bits b3).
  destruct (N.leb_spec 0x10000 c) as [Hc|Hc]; [|discriminate].
  destruct (N.leb_spec c 0x10FFFF) as [Hmax|Hmax]; [|discriminate].
  cbn [andb].
  intros H. apply fmap_cons_Some in H as (t' & Hrest & ->).
  cbn [length] in Hlen.
  destruct (IH rest3 t' ltac:(lia) Hrest) as [Henc Hsc].
  cbn [utf8_encode flat_map forallb]. fold (utf8_encode t').
  rewrite Henc, Hsc.
  destruct (split_bits (((Byte.to_N b0 - 0xF0) * 64 + continuation_bits b1) * 64
                        + continuation_bits b2) _ R3) as [D3 M3].
  destruct (split_bits ((Byte.to_N b0 - 0xF0) * 64 + continuation_bits b1)
              _ R2) as [D2 M2].
  destruct (split_bits (Byte.to_N b0 - 0xF0) _ R1) as [D1 M1].
  replace ((((Byte.to_N b0 - 0xF0) * 64 + continuation_bits b1) * 64
            + continuation_bits b2) * 64 + continuation_bits b3)
    with c in D3, M3 by (unfold c; lia).
  unfold utf8_encode_char, is_scalar, is_surrogate.
  replace (c <? 0x80) with false by (symmetry; apply N.ltb_ge; lia).
  replace (c <? 0x800) with false by (symmetry; apply N.ltb_ge; lia).
  replace (c <? 0x10000) with false by (symmetry; apply N.ltb_ge; lia).
  rewrite D3, M3, D2, M2, D1, M1, B1, B2, B3.
  replace (0xF0 + (Byte.to_N b0 - 0xF0)) with (Byte.to_N b0) by lia.
  rewrite Hb0. split; [reflexivity|].
  replace (c <=? 0x10FFFF) with true by (symmetry; apply N.leb_le; lia).
  replace (c <=? 0xDFFF) with false by (symmetry; apply N.leb_gt; lia).
  by rewrite andb_false_r.
Qed.

(** X12: the decoder is strict.  A byte string it accepts is the UTF-8
    encoding of the text it returns, and that text holds scalar values
    only: overlong forms, surrogates and values above U+10FFFF are not
    decoded. *)
Theorem utf8_decode_is_strict bs t :
  utf8_decode bs = Some t ->
  utf8_encode t = bs /\ forallb is_scalar t = true.
Proof. apply (utf8_decode_inv (length bs)). reflexivity. Qed.

Section FurtherProperties.

Variable json_loads : text -> Outcome unit.
Variable uuid4_gen : nat -> UUID.
Variable get_lambda_output :
  list byte -> Outcome (text * option text * bool).

Lemma first_failure_some cs r rv :
  first_failure json_loads cs r = Some rv ->
  exists c, c ∈ cs /\ check_holds json_loads c r = false
            /\ rv = rejection c r.
Proof.
  induction cs as [|c cs IH]; simpl; [discriminate|].
  destruct (check_holds json_loads c r) eqn:Hc.
  - intros H. destruct (IH H) as (c' & Hin & Hfalse & ->).
    exists c'. split; [by right | by split].
  - intros [= <-]. exists c. split; [by left | by split].
Qed.

(** X1: a request that validation refuses is answered with the
    refusal, a JSON error of status 400 or 501, and nothing else
    happens: whatever the route and the service, the application
    performs no effect. *)
Theorem rejected_request_is_not_dispatched r rv :
  validate_request json_loads r = Returned (Some rv) ->
  (status_code rv = 400%Z \/ status_code rv = 501%Z)
  /\ response_header rv "Content-Type" = Some (HStr "application/json")
  /\ (exists e, body rv = Some (ErrorJson e))
  /\ forall self w,
       wsgi_app json_loads uuid4_gen get_lambda_output self r w = (rv, w).
Proof.
  intros Hv.
  assert (Happ : forall self w,
             wsgi_app json_loads uuid4_gen get_lambda_output self r w = (rv, w))
    by (intros self w; unfold wsgi_app; by rewrite Hv).
  pose proof (validate_request_returned json_loads r _ Hv) as Hf.
  symmetry in Hf.
  destruct (first_failure_some _ _ _ Hf) as (c & _ & _ & ->).
  destruct c; (split; [auto|]); (split; [reflexivity|]);
    (split; [eexists; reflexivity | exact Happ]).
Qed.

(** X2: validation reads two headers only, and of the query string
    only whether it is empty: a further header of any other name (a
    [Content-Type], say), another route and other query parameters
    leave the verdict as it is. *)
Theorem validate_request_reads_two_headers r name value other_route other_args :
  lower name <> "x-amz-log-type"%string ->
  lower name <> "x-amz-invocation-type"%string ->
  (other_args = [] <-> args r = []) ->
  validate_request json_loads
    {| route := other_route; get_data := get_data r; args := other_args;
       headers := headers r ++ [(name, value)] |}
  = validate_request json_loads r.
Proof.
  intros Hlog Hinv Hargs. unfold validate_request, has_args.
  cbn [get_data args headers].
  rewrite !get_snoc_other
    by (rewrite ?lower_log_type, ?lower_invocation_type; assumption).
  destruct other_args as [|a other_args], (args r) as [|b rest];
    try reflexivity.
  - destruct Hargs as [Hargs _]. discriminate (Hargs eq_refl).
  - destruct Hargs as [_ Hargs]. discriminate (Hargs eq_refl).
Qed.

(** X3: a body of ASCII bytes always decodes, to the code points its
    bytes are.  Validation then returns the verdict of the four checks,
    unless [json.loads] raises something that is not a [ValueError]:
    on such a body validation raises nothing else, and no decoding
    error. *)
Theorem ascii_body_is_decoded r :
  forallb is_ascii_byte (get_data r) = true ->
  let payload := map Byte.to_N (default_body (get_data r)) in
  decode (default_body (get_data r)) = Returned payload
  /\ validate_request json_loads r
     = match json_loads payload with
       | Raised e =>
         if is_ValueError e
         then Returned (first_failure json_loads checks r)
         else Raised e
       | Returned _ => Returned (first_failure json_loads checks r)
       end
  /\ forall e,
       validate_request json_loads r = Raised e ->
       json_loads payload = Raised e /\ is_ValueError e = false.
Proof.
  intros Hascii payload.
  assert (Ht : utf8_decode (default_body (get_data r)) = Some payload).
  { apply utf8_decode_ascii. destruct (get_data r); [reflexivity | exact Hascii]. }
  split; [unfold decode; by rewrite Ht|].
  rewrite (validate_request_decoded json_loads r _ Ht).
  split; [reflexivity|].
  intros e. destruct (json_loads payload) as [[]|e'] eqn:Hj; [discriminate|].
  destruct (is_ValueError e') eqn:He'; [discriminate|].
  intros [= <-]. by split.
Qed.

Lemma elem_of_log_events stderr lambda_logs s data :
  EvWrite s data ∈ log_events stderr lambda_logs
  <-> stderr = Some s /\ lambda_logs = Some data /\ data <> [].
Proof.
  destruct stderr as [s'|], lambda_logs as [[|c cs]|]; cbn [log_events];
    rewrite ?list_elem_of_singleton, ?elem_of_nil;
    (split;
     [ intros H;
       first [ contradiction
             | injection H as -> ->; repeat split; discriminate ]
     | intros (H1 & H2 & H3); congruence ]).
Qed.

(** X4: the synchronous path writes to a stream in one case only: the
    engine returned, a sink was given and the parsed logs are not
    empty; what it then writes, once, is the logs to the sink. *)
Theorem sync_writes_iff self function_name request_data stdout stderr w :
  exists out evs,
    _invoke_sync_request get_lambda_output self function_name request_data
      stdout stderr w = (out, extend w evs)
    /\ forall s data,
         EvWrite s data ∈ evs
         <-> stderr = Some s /\ data <> []
             /\ exists written lambda_response is_error,
                  lambda_runner self function_name request_data
                  = Returned written
                  /\ get_lambda_output (stdout ++ written)
                     = Returned (lambda_response, Some data, is_error).
Proof.
  destruct (lambda_runner self function_name request_data)
    as [written|e] eqn:Hrun.
  - destruct (get_lambda_output (stdout ++ written))
      as [[[lambda_response lambda_logs] is_error]|e] eqn:Hout.
    + eexists _, _. split; [by apply sync_returned|].
      intros s data. rewrite !elem_of_cons, elem_of_log_events. split.
      * intros [H|[H|(-> & -> & Hdata)]]; try discriminate H.
        split; [reflexivity|]. split; [exact Hdata|].
        by exists written, lambda_response, is_error.
      * intros (-> & Hdata & written' & response' & error' & Hw & Hlogs).
        right; right. split; [reflexivity|]. split; [congruence | exact Hdata].
    + eexists _, _. split; [by apply sync_parser_raised|].
      intros s data. rewrite !elem_of_cons, elem_of_nil. split.
      * intros [H|[H|[]]]; discriminate H.
      * intros (_ & _ & written' & response' & error' & Hw & Hlogs).
        congruence.
  - assert (Hsync : exists out,
               _invoke_sync_request get_lambda_output self function_name
                 request_data stdout stderr w
               = (out, extend w [EvInvoke function_name request_data stderr])).
    { destruct e; eexists;
        [apply sync_not_found, Hrun | by apply sync_raised ..]. }
    destruct Hsync as [out Hsync]. eexists _, _. split; [exact Hsync|].
    intros s data. rewrite elem_of_cons, elem_of_nil. split.
    + intros [H|[]]. discriminate H.
    + intros (_ & _ & written & response' & error' & H & _). discriminate H.
Qed.

(** *** The application, case by case *)

Lemma validated_json r :
  validate_request json_loads r = Returned None ->
  exists payload,
    utf8_decode (default_body (get_data r)) = Some payload
    /\ json_loads payload = Returned ().
Proof.
  intros Hv. destruct (validated_decodes json_loads r Hv) as [t Ht].
  exists t. split; [exact Ht|].
  assert (Hnone : first_failure json_loads checks r = None)
    by (symmetry; exact (validate_request_returned json_loads r None Hv)).
  pose proof (proj1 (first_failure_none json_loads checks r) Hnone BodyIsJson)
    as Hjson.
  unfold check_holds in Hjson. rewrite Ht in Hjson.
  destruct (json_loads t) as [[]|e]; [reflexivity|].
  discriminate Hjson. unfold checks. set_solver.
Qed.

(** The answer of the application to a validated request for
    [function_name] on the synchronous path. *)
Lemma wsgi_app_sync_eq self r w function_name payload :
  validate_request json_loads r = Returned None ->
  route r = Matched function_name ->
  utf8_decode (default_body (get_data r)) = Some payload ->
  request_header r invocation_type_header <> Some "Event"%string ->
  wsgi_app json_loads uuid4_gen get_lambda_output self r w
  = match lambda_runner self function_name payload with
    | Returned written =>
      match get_lambda_output written with
      | Returned (lambda_response, lambda_logs, is_error) =>
        (service_response (Some (Text lambda_response))
           (lambda_headers is_error) 200%Z,
         extend w (EvInvoke function_name payload (stderr self)
                   :: EvGetLambdaOutput written
                   :: log_events (stderr self) lambda_logs))
      | Raised _ =>
        (LambdaErrorResponses.generic_service_exception,
         extend w [EvInvoke function_name payload (stderr self);
                   EvGetLambdaOutput written])
      end
    | Raised FunctionNotFound =>
        (LambdaErrorResponses.resource_not_found function_name,
         extend w [EvInvoke function_name payload (stderr self)])
    | Raised _ =>
        (LambdaErrorResponses.generic_service_exception,
         extend w [EvInvoke function_name payload (stderr self)])
    end.
Proof.
  intros Hv Hroute Ht Hsync. unfold wsgi_app.
  rewrite Hv, Hroute, (handler_decoded _ _ _ _ _ _ _ Ht).
  assert (Hev : String.eqb (default "RequestResponse"%string
                              (request_header r invocation_type_header))
                  "Event" = false).
  { apply String.eqb_neq. intros Heq. apply Hsync.
    destruct (request_header r invocation_type_header) as [v|];
      simpl in Heq; [by subst | discriminate Heq]. }
  rewrite Hev.
  destruct (lambda_runner self function_name payload) as [written|e] eqn:Hrun.
  - destruct (get_lambda_output written)
      as [[[lambda_response lambda_logs] is_error]|e] eqn:Hout.
    + by rewrite (sync_returned _ _ _ _ [] _ _ _ _ _ _ Hrun Hout).
    + by rewrite (sync_parser_raised _ _ _ _ [] _ _ _ _ Hrun Hout).
  - destruct e.
    + by rewrite (sync_not_found _ _ _ _ _ _ _ Hrun).
    + by rewrite (sync_raised _ _ _ _ _ _ _ _ Hrun).
    + by rewrite (sync_raised _ _ _ _ _ _ _ _ Hrun).
    + by rewrite (sync_raised _ _ _ _ _ _ _ _ Hrun).
Qed.

(** The same on the asynchronous path. *)
Lemma wsgi_app_event_eq self r w function_name payload :
  validate_request json_loads r = Returned None ->
  route r = Matched function_name ->
  utf8_decode (default_body (get_data r)) = Some payload ->
  request_header r invocation_type_header = Some "Event"%string ->
  wsgi_app json_loads uuid4_gen get_lambda_output self r w
  = (service_response None
       [("x-amzn-requestid"%string, HUuid (uuid4_gen (uuid_calls w)))] 202%Z,
     {| uuid_calls := S (uuid_calls w);
        events := events w
                  ++ [EvUuid4 (uuid4_gen (uuid_calls w));
                      EvThreadStart
                        {| target := Some Method_invoke_sync_request;
                           thread_function_name := function_name;
                           thread_request_data := payload;
                           thread_stdout := [];
                           thread_stderr := stderr self;
                           daemon := true |}] |}).
Proof.
  intros Hv Hroute Ht Hev. unfold wsgi_app.
  rewrite Hv, Hroute, (handler_decoded _ _ _ _ _ _ _ Ht), Hev.
  assert (Heqb : String.eqb (default "RequestResponse"%string
                               (Some "Event"%string)) "Event" = true)
    by reflexivity.
  by rewrite Heqb, async_eq.
Qed.

(** X5: a validated request for a routed function that is not an
    [Event] request is answered by what the engine and the output
    parser do with the decoded body.  When the engine returns and the
    parser returns, the answer is the parsed output with status 200;
    when the engine raises [FunctionNotFound], the 404 of an unknown
    function; when the engine raises anything else, or the parser
    raises, the 500 of the registered handler.  The engine is called
    once, on a fresh output buffer. *)
Theorem wsgi_app_synchronous self r w function_name :
  validate_request json_loads r = Returned None ->
  route r = Matched function_name ->
  request_header r invocation_type_header <> Some "Event"%string ->
  exists payload,
    utf8_decode (default_body (get_data r)) = Some payload
    /\ wsgi_app json_loads uuid4_gen get_lambda_output self r w
       = match lambda_runner self function_name payload with
         | Returned written =>
           match get_lambda_output written with
           | Returned (lambda_response, lambda_logs, is_error) =>
             (service_response (Some (Text lambda_response))
                (lambda_headers is_error) 200%Z,
              extend w (EvInvoke function_name payload (stderr self)
                        :: EvGetLambdaOutput written
                        :: log_events (stderr self) lambda_logs))
           | Raised _ =>
             (LambdaErrorResponses.generic_service_exception,
              extend w [EvInvoke function_name payload (stderr self);
                        EvGetLambdaOutput written])
           end
         | Raised FunctionNotFound =>
             (LambdaErrorResponses.resource_not_found function_name,
              extend w [EvInvoke function_name payload (stderr self)])
         | Raised _ =>
             (LambdaErrorResponses.generic_service_exception,
              extend w [EvInvoke function_name payload (stderr self)])
         end.
Proof.
  intros Hv Hroute Hsync. destruct (validated_json r Hv) as (payload & Ht & _).
  exists payload. split; [exact Ht|]. by apply wsgi_app_sync_eq.
Qed.

(** X6: a validated [Event] request for a routed function is answered
    202 with a fresh identifier, whatever the engine knows of the
    function; the thread that is started carries the decoded body,
    which [json.loads] accepted, an empty output buffer and the
    stderr stream of the service. *)
Theorem wsgi_app_event self r w function_name :
  validate_request json_loads r = Returned None ->
  route r = Matched function_name ->
  request_header r invocation_type_header = Some "Event"%string ->
  exists payload,
    utf8_decode (default_body (get_data r)) = Some payload
    /\ json_loads payload = Returned ()
    /\ wsgi_app json_loads uuid4_gen get_lambda_output self r w
       = (service_response None
            [("x-amzn-requestid"%string, HUuid (uuid4_gen (uuid_calls w)))]
            202%Z,
          {| uuid_calls := S (uuid_calls w);
             events := events w
                       ++ [EvUuid4 (uuid4_gen (uuid_calls w));
                           EvThreadStart
                             {| target := Some Method_invoke_sync_request;
                                thread_function_name := function_name;
                                thread_request_data := payload;
                                thread_stdout := [];
                                thread_stderr := stderr self;
                                daemon := true |}] |}).
Proof.
  intros Hv Hroute Hev. destruct (validated_json r Hv) as (payload & Ht & Hjson).
  exists payload. split; [exact Ht|]. split; [exact Hjson|].
  by apply wsgi_app_event_eq.
Qed.

(** The requests the application does not dispatch: it answers them
    with an error of its own and performs no effect. *)
Lemma wsgi_app_cases self r w :
  (exists rv,
     wsgi_app json_loads uuid4_gen get_lambda_output self r w = (rv, w)
     /\ (rv = LambdaErrorResponses.generic_service_exception
         \/ (exists c, rv = rejection c r)
         \/ rv = LambdaErrorResponses.generic_path_not_found
         \/ rv = LambdaErrorResponses.generic_method_not_allowed))
  \/ (exists function_name payload,
        validate_request json_loads r = Returned None
        /\ route r = Matched function_name
        /\ utf8_decode (default_body (get_data r)) = Some payload
        /\ json_loads payload = Returned ()).
Proof.
  destruct (validate_request json_loads r) as [[rv|]|e] eqn:Hv.
  - left. exists rv. split; [unfold wsgi_app; by rewrite Hv|].
    right; left.
    pose proof (validate_request_returned json_loads r _ Hv) as Hf.
    symmetry in Hf.
    destruct (first_failure_some _ _ _ Hf) as (c & _ & _ & ->). by exists c.
  - destruct (route r) as [function_name| |] eqn:Hroute.
    + right. destruct (validated_json r Hv) as (payload & Ht & Hjson).
      by exists function_name, payload.
    + left. eexists. split; [unfold wsgi_app; by rewrite Hv, Hroute|]. auto.
    + left. eexists. split; [unfold wsgi_app; by rewrite Hv, Hroute|]. auto.
  - left. eexists. split; [unfold wsgi_app; by rewrite Hv|]. auto.
Qed.

(** X8: what answering one request does.  Either nothing; or, for a
    routed function and a body that decodes to a payload [json.loads]
    accepts, one of two things: an identifier is drawn and a thread is
    started on that payload, or the engine is invoked once with that
    payload, after which the output may be parsed and the logs
    written.  Identifiers are drawn by the first of these only. *)
Theorem wsgi_app_effects self r w :
  exists rv evs w',
    wsgi_app json_loads uuid4_gen get_lambda_output self r w = (rv, w')
    /\ events w' = events w ++ evs
    /\ ((evs = [] /\ uuid_calls w' = uuid_calls w)
        \/ exists function_name payload,
             route r = Matched function_name
             /\ utf8_decode (default_body (get_data r)) = Some payload
             /\ json_loads payload = Returned ()
             /\ ((evs = [EvUuid4 (uuid4_gen (uuid_calls w));
                         EvThreadStart
                           {| target := Some Method_invoke_sync_request;
                              thread_function_name := function_name;
                              thread_request_data := payload;
                              thread_stdout := [];
                              thread_stderr := stderr self;
                              daemon := true |}]
                  /\ uuid_calls w' = S (uuid_calls w))
                 \/ (exists rest,
                       evs = EvInvoke function_name payload (stderr self) :: rest
                       /\ uuid_calls w' = uuid_calls w
                       /\ forall e, e ∈ rest ->
                            (exists stdout, e = EvGetLambdaOutput stdout)
                            \/ (exists s data, e = EvWrite s data)))).
Proof.
  destruct (wsgi_app_cases self r w)
    as [(rv & Happ & _) | (function_name & payload & Hv & Hroute & Ht & Hjson)].
  - exists rv, [], w. split; [exact Happ|].
    split; [by rewrite app_nil_r|]. by left.
  - destruct (decide (request_header r invocation_type_header
                      = Some "Event"%string)) as [Hev|Hsync].
    + eexists _, _, _.
      split; [by apply wsgi_app_event_eq|]. split; [reflexivity|].
      right. exists function_name, payload. do 3 (split; [assumption|]).
      left. by split.
    + pose proof (wsgi_app_sync_eq self r w function_name payload
                    Hv Hroute Ht Hsync) as Happ.
      assert (Hshape : exists rv rest,
                 wsgi_app json_loads uuid4_gen get_lambda_output self r w
                 = (rv, extend w (EvInvoke function_name payload (stderr self)
                                  :: rest))
                 /\ forall e, e ∈ rest ->
                      (exists stdout, e = EvGetLambdaOutput stdout)
                      \/ (exists s data, e = EvWrite s data)).
      { destruct (lambda_runner self function_name payload) as [written|e].
        - destruct (get_lambda_output written)
            as [[[lambda_response lambda_logs] is_error]|e].
          + eexists _, _. split; [exact Happ|].
            intros e. rewrite elem_of_cons.
            intros [->|He]; [left; by eexists|].
            right. destruct (stderr self) as [s|],
              lambda_logs as [[|c cs]|];
              cbn [log_events] in He;
              rewrite ?list_elem_of_singleton, ?elem_of_nil in He;
              try contradiction.
            subst e. by eexists _, _.
          + eexists _, _. split; [exact Happ|].
            intros e'. rewrite list_elem_of_singleton. intros ->.
            left. by eexists.
        - destruct e; eexists _, []; (split; [exact Happ|]);
            intros e' He'; by apply elem_of_nil in He'. }
      destruct Hshape as (rv & rest & Happ' & Hrest).
      eexists _, _, _. split; [exact Happ'|]. split; [reflexivity|].
      right. exists function_name, payload. do 3 (split; [assumption|]).
      right. exists rest. by split.
Qed.

(** X9: every answer of the application is of one of two kinds.  It
    is the 202 of an accepted [Event] request, without body and
    without [Content-Type], carrying the identifier just drawn; or it
    has status 200, 400, 404, 405, 500 or 501, a body, [Content-Type:
    application/json] and no request identifier. *)
Theorem wsgi_app_answers self r w :
  let rv := (wsgi_app json_loads uuid4_gen get_lambda_output self r w).1 in
  (status_code rv = 202%Z
   /\ body rv = None
   /\ response_header rv "Content-Type" = None
   /\ response_header rv "x-amzn-requestid"
      = Some (HUuid (uuid4_gen (uuid_calls w))))
  \/ (status_code rv ∈ [200; 400; 404; 405; 500; 501]%Z
      /\ is_Some (body rv)
      /\ response_header rv "Content-Type" = Some (HStr "application/json")
      /\ response_header rv "x-amzn-requestid" = None).
Proof.
  intros rv. subst rv.
  destruct (wsgi_app_cases self r w)
    as [(rv & -> & Hrv) | (function_name & payload & Hv & Hroute & Ht & Hjson)].
  - right. cbn [fst].
    destruct Hrv as [-> | [[c ->] | [-> | ->]]]; try destruct c;
      (split; [cbn; set_solver|]); (split; [by eexists|]);
      split; reflexivity.
  - destruct (decide (request_header r invocation_type_header
                      = Some "Event"%string)) as [Hev|Hsync].
    + left. rewrite (wsgi_app_event_eq self r w function_name payload)
        by assumption.
      cbn [fst]. repeat split.
    + right. rewrite (wsgi_app_sync_eq self r w function_name payload)
        by assumption.
      destruct (lambda_runner self function_name payload) as [written|e].
      * destruct (get_lambda_output written)
          as [[[lambda_response lambda_logs] is_error]|e]; cbn [fst];
          [destruct is_error|];
          (split; [cbn; set_solver|]); (split; [by eexists|]);
          split; reflexivity.
      * destruct e; cbn [fst];
          (split; [cbn; set_solver|]); (split; [by eexists|]);
          split; reflexivity.
Qed.

(** *** Identifiers while requests are served *)

Lemma wsgi_app_uuid_calls self r w :
  (uuid_calls w
   <= uuid_calls (wsgi_app json_loads uuid4_gen get_lambda_output self r w).2)%nat.
Proof.
  destruct (wsgi_app_cases self r w)
    as [(rv & -> & _) | (function_name & payload & Hv & Hroute & Ht & Hjson)];
    [reflexivity|].
  destruct (decide (request_header r invocation_type_header
                    = Some "Event"%string)) as [Hev|Hsync].
  - rewrite (wsgi_app_event_eq self r w function_name payload) by assumption.
    cbn. lia.
  - rewrite (wsgi_app_sync_eq self r w function_name payload) by assumption.
    destruct (lambda_runner self function_name payload) as [written|e];
      [destruct (get_lambda_output written) as [[[? ?] ?]|?] | destruct e];
      reflexivity.
Qed.

Lemma serves_uuid_calls self w w' :
  serves json_loads uuid4_gen get_lambda_output self w w' ->
  (uuid_calls w <= uuid_calls w')%nat.
Proof.
  induction 1 as [w | w flask_request w' _ IH]; [reflexivity|].
  etransitivity; [apply (wsgi_app_uuid_calls self flask_request w) | exact IH].
Qed.

(** X10: when [uuid4] never repeats, the identifier answered to an
    [Event] request differs from the identifier answered to any
    [Event] request the application serves later, whatever requests
    it serves in between. *)
Theorem later_request_id_differs self r1 f1 r2 f2 w w' :
  Inj (=) (=) uuid4_gen ->
  validate_request json_loads r1 = Returned None ->
  route r1 = Matched f1 ->
  request_header r1 invocation_type_header = Some "Event"%string ->
  validate_request json_loads r2 = Returned None ->
  route r2 = Matched f2 ->
  request_header r2 invocation_type_header = Some "Event"%string ->
  serves json_loads uuid4_gen get_lambda_output self
    (wsgi_app json_loads uuid4_gen get_lambda_output self r1 w).2 w' ->
  response_header
    (wsgi_app json_loads uuid4_gen get_lambda_output self r1 w).1
    "x-amzn-requestid"
  <> response_header
       (wsgi_app json_loads uuid4_gen get_lambda_output self r2 w').1
       "x-amzn-requestid".
Proof.
  intros Hinj Hv1 Hroute1 Hev1 Hv2 Hroute2 Hev2 Hserves.
  destruct (validated_json r1 Hv1) as (p1 & Ht1 & _).
  destruct (validated_json r2 Hv2) as (p2 & Ht2 & _).
  apply serves_uuid_calls in Hserves.
  rewrite (wsgi_app_event_eq self r1 w f1 p1) in * by assumption.
  rewrite (wsgi_app_event_eq self r2 w' f2 p2) by assumption.
  cbn [fst snd uuid_calls] in *.
  assert (Hid : forall n,
             response_header
               (service_response None
                  [("x-amzn-requestid"%string, HUuid (uuid4_gen n))] 202%Z)
               "x-amzn-requestid" = Some (HUuid (uuid4_gen n)))
    by reflexivity.
  rewrite !Hid. intros [= Heq]. apply Hinj in Heq. lia.
Qed.

(** *** The identifiers of the trace *)






End FurtherProperties.

(** ** The further properties at concrete requests *)

Lemma rejected_request_is_not_dispatched_witness :
  validate_request Sample.json_loads SampleService.unparsable_with_query
  = Returned (Some (LambdaErrorResponses.invalid_request_content
                      parse_error_message))
  /\ (status_code (LambdaErrorResponses.invalid_request_content
                     parse_error_message) = 400%Z
      \/ status_code (LambdaErrorResponses.invalid_request_content
                        parse_error_message) = 501%Z)
  /\ response_header
       (LambdaErrorResponses.invalid_request_content parse_error_message)
       "Content-Type" = Some (HStr "application/json")
  /\ (exists e,
        body (LambdaErrorResponses.invalid_request_content parse_error_message)
        = Some (ErrorJson e))
  /\ forall self w,
       wsgi_app Sample.json_loads Sample.uuid4_gen Sample.get_lambda_output
         self SampleService.unparsable_with_query w
       = (LambdaErrorResponses.invalid_request_content parse_error_message, w).
Proof.
  split; [vm_compute; reflexivity|].
  apply (rejected_request_is_not_dispatched Sample.json_loads Sample.uuid4_gen
           Sample.get_lambda_output SampleService.unparsable_with_query).
  vm_compute; reflexivity.
Defined.

Lemma validate_request_reads_two_headers_witness :
  lower "Content-Type" <> "x-amz-log-type"%string
  /\ lower "Content-Type" <> "x-amz-invocation-type"%string
  /\ ([("b", "2")]%string = [] <-> args SampleService.unparsable_with_query = [])
  /\ validate_request Sample.json_loads
       {| route := NoSuchPath;
          get_data := get_data SampleService.unparsable_with_query;
          args := [("b", "2")]%string;
          headers := headers SampleService.unparsable_with_query
                     ++ [("Content-Type", "text/plain")]%string |}
     = validate_request Sample.json_loads SampleService.unparsable_with_query.
Proof.
  assert (H1 : lower "Content-Type" <> "x-amz-log-type"%string)
    by (intros H; vm_compute in H; discriminate H).
  assert (H2 : lower "Content-Type" <> "x-amz-invocation-type"%string)
    by (intros H; vm_compute in H; discriminate H).
  assert (H3 : [("b", "2")]%string = []
               <-> args SampleService.unparsable_with_query = [])
    by (split; intros H; discriminate H).
  split; [exact H1|]. split; [exact H2|]. split; [exact H3|].
  exact (validate_request_reads_two_headers Sample.json_loads
           SampleService.unparsable_with_query "Content-Type" "text/plain"
           NoSuchPath [("b", "2")]%string H1 H2 H3).
Defined.

Lemma ascii_body_is_decoded_witness :
  forallb is_ascii_byte
    (get_data (SampleService.post "foo" empty_json_bytes [] [])) = true
  /\ decode (default_body
               (get_data (SampleService.post "foo" empty_json_bytes [] [])))
     = Returned (map Byte.to_N
                   (default_body
                      (get_data (SampleService.post "foo" empty_json_bytes [] []))))
  /\ validate_request Sample.json_loads
       (SampleService.post "foo" empty_json_bytes [] [])
     = match Sample.json_loads
               (map Byte.to_N
                  (default_body
                     (get_data (SampleService.post "foo" empty_json_bytes [] []))))
       with
       | Raised e =>
         if is_ValueError e
         then Returned (first_failure Sample.json_loads checks
                          (SampleService.post "foo" empty_json_bytes [] []))
         else Raised e
       | Returned _ =>
         Returned (first_failure Sample.json_loads checks
                     (SampleService.post "foo" empty_json_bytes [] []))
       end
  /\ forall e,
       validate_request Sample.json_loads
         (SampleService.post "foo" empty_json_bytes [] []) = Raised e ->
       Sample.json_loads
         (map Byte.to_N
            (default_body
               (get_data (SampleService.post "foo" empty_json_bytes [] []))))
       = Raised e
       /\ is_ValueError e = false.
Proof.
  split; [reflexivity|].
  apply (ascii_body_is_decoded Sample.json_loads
           (SampleService.post "foo" empty_json_bytes [] [])).
  reflexivity.
Defined.

Lemma wsgi_app_synchronous_witness :
  validate_request Sample.json_loads SampleService.garbled_request
  = Returned None
  /\ route SampleService.garbled_request = Matched "garbled"
  /\ request_header SampleService.garbled_request invocation_type_header
     <> Some "Event"%string
  /\ exists payload,
       utf8_decode (default_body (get_data SampleService.garbled_request))
       = Some payload
       /\ wsgi_app Sample.json_loads Sample.uuid4_gen Sample.get_lambda_output
            SampleService.service SampleService.garbled_request
            SampleService.world0
          = match lambda_runner SampleService.service "garbled" payload with
            | Returned written =>
              match Sample.get_lambda_output written with
              | Returned (lambda_response, lambda_logs, is_error) =>
                (service_response (Some (Text lambda_response))
                   (lambda_headers is_error) 200%Z,
                 extend SampleService.world0
                   (EvInvoke "garbled" payload (stderr SampleService.service)
                    :: EvGetLambdaOutput written
                    :: log_events (stderr SampleService.service) lambda_logs))
              | Raised _ =>
                (LambdaErrorResponses.generic_service_exception,
                 extend SampleService.world0
                   [EvInvoke "garbled" payload (stderr SampleService.service);
                    EvGetLambdaOutput written])
              end
            | Raised FunctionNotFound =>
                (LambdaErrorResponses.resource_not_found "garbled",
                 extend SampleService.world0
                   [EvInvoke "garbled" payload (stderr SampleService.service)])
            | Raised _ =>
                (LambdaErrorResponses.generic_service_exception,
                 extend SampleService.world0
                   [EvInvoke "garbled" payload (stderr SampleService.service)])
            end.
Proof.
  assert (Hsync : request_header SampleService.garbled_request
                    invocation_type_header <> Some "Event"%string)
    by (intros H; vm_compute in H; discriminate H).
  split; [vm_compute; reflexivity|]. split; [reflexivity|].
  split; [exact Hsync|].
  apply (wsgi_app_synchronous Sample.json_loads Sample.uuid4_gen
           Sample.get_lambda_output SampleService.service
           SampleService.garbled_request SampleService.world0 "garbled");
    [vm_compute; reflexivity | reflexivity | exact Hsync].
Defined.

Lemma wsgi_app_event_witness :
  validate_request Sample.json_loads SampleService.event_request = Returned None
  /\ route SampleService.event_request = Matched "foo"
  /\ request_header SampleService.event_request invocation_type_header
     = Some "Event"%string
  /\ exists payload,
       utf8_decode (default_body (get_data SampleService.event_request))
       = Some payload
       /\ Sample.json_loads payload = Returned ()
       /\ wsgi_app Sample.json_loads Sample.uuid4_gen Sample.get_lambda_output
            SampleService.service SampleService.event_request
            SampleService.world0
          = (service_response None
               [("x-amzn-requestid"%string,
                 HUuid (Sample.uuid4_gen (uuid_calls SampleService.world0)))]
               202%Z,
             {| uuid_calls := S (uuid_calls SampleService.world0);
                events := events SampleService.world0
                          ++ [EvUuid4 (Sample.uuid4_gen
                                         (uuid_calls SampleService.world0));
                              EvThreadStart
                                {| target := Some Method_invoke_sync_request;
                                   thread_function_name := "foo";
                                   thread_request_data := payload;
                                   thread_stdout := [];
                                   thread_stderr := stderr SampleService.service;
                                   daemon := true |}] |}).
Proof.
  split; [vm_compute; reflexivity|]. split; [reflexivity|].
  split; [vm_compute; reflexivity|].
  apply (wsgi_app_event Sample.json_loads Sample.uuid4_gen
           Sample.get_lambda_output SampleService.service
           SampleService.event_request SampleService.world0 "foo");
    [vm_compute; reflexivity | reflexivity | vm_compute; reflexivity].
Defined.

Lemma later_request_id_differs_witness :
  Inj (=) (=) Sample.uuid4_gen
  /\ validate_request Sample.json_loads SampleService.event_request
     = Returned None
  /\ route SampleService.event_request = Matched "foo"
  /\ request_header SampleService.event_request invocation_type_header
     = Some "Event"%string
  /\ serves Sample.json_loads Sample.uuid4_gen Sample.get_lambda_output
       SampleService.service
       (wsgi_app Sample.json_loads Sample.uuid4_gen Sample.get_lambda_output
          SampleService.service SampleService.event_request
          SampleService.world0).2
       (wsgi_app Sample.json_loads Sample.uuid4_gen Sample.get_lambda_output
          SampleService.service SampleService.plain_request
          (wsgi_app Sample.json_loads Sample.uuid4_gen Sample.get_lambda_output
             SampleService.service SampleService.event_request
             SampleService.world0).2).2
  /\ response_header
       (wsgi_app Sample.json_loads Sample.uuid4_gen Sample.get_lambda_output
          SampleService.service SampleService.event_request
          SampleService.world0).1
       "x-amzn-requestid"
     <> response_header
          (wsgi_app Sample.json_loads Sample.uuid4_gen Sample.get_lambda_output
             SampleService.service SampleService.event_request
             (wsgi_app Sample.json_loads Sample.uuid4_gen
                Sample.get_lambda_output SampleService.service
                SampleService.plain_request
                (wsgi_app Sample.json_loads Sample.uuid4_gen
                   Sample.get_lambda_output SampleService.service
                   SampleService.event_request SampleService.world0).2).2).1
          "x-amzn-requestid".
Proof.
  assert (Hinj : Inj (=) (=) Sample.uuid4_gen)
    by (intros m n; apply Nat2N.inj).
  assert (Hv : validate_request Sample.json_loads SampleService.event_request
               = Returned None) by (vm_compute; reflexivity).
  assert (Hev : request_header SampleService.event_request
                  invocation_type_header = Some "Event"%string)
    by (vm_compute; reflexivity).
  assert (Hserves :
            serves Sample.json_loads Sample.uuid4_gen Sample.get_lambda_output
              SampleService.service
              (wsgi_app Sample.json_loads Sample.uuid4_gen
                 Sample.get_lambda_output SampleService.service
                 SampleService.event_request SampleService.world0).2
              (wsgi_app Sample.json_loads Sample.uuid4_gen
                 Sample.get_lambda_output SampleService.service
                 SampleService.plain_request
                 (wsgi_app Sample.json_loads Sample.uuid4_gen
                    Sample.get_lambda_output SampleService.service
                    SampleService.event_request SampleService.world0).2).2)
    by (apply (serves_request _ _ _ _ _ SampleService.plain_request),
          serves_done).
  split; [exact Hinj|]. split; [exact Hv|]. split; [reflexivity|].
  split; [exact Hev|]. split; [exact Hserves|].
  exact (later_request_id_differs Sample.json_loads Sample.uuid4_gen
           Sample.get_lambda_output SampleService.service
           SampleService.event_request "foo" SampleService.event_request "foo"
           SampleService.world0 _ Hinj Hv eq_refl Hev Hv eq_refl Hev Hserves).
Defined.

Lemma utf8_decode_encode_witness :
  forallb is_scalar [65; 0xE9; 0x20AC; 0x1F600] = true
  /\ utf8_decode (utf8_encode [65; 0xE9; 0x20AC; 0x1F600])
     = Some [65; 0xE9; 0x20AC; 0x1F600].
Proof.
  split; [reflexivity|].
  apply (utf8_decode_encode [65; 0xE9; 0x20AC; 0x1F600]). reflexivity.
Defined.

Lemma utf8_decode_is_strict_witness :
  utf8_decode [xf0; x9f; x98; x80; x21]%byte = Some [0x1F600; 33]
  /\ utf8_encode [0x1F600; 33] = [xf0; x9f; x98; x80; x21]%byte
  /\ forallb is_scalar [0x1F600; 33] = true.
Proof.
  split; [reflexivity|].
  apply (utf8_decode_is_strict [xf0; x9f; x98; x80; x21]%byte [0x1F600; 33]).
  reflexivity.
Defined.

(** Output that is not UTF-8 makes the parser raise, which escapes the
    handler: the answer is the 500 of the registered handler. *)
Example parser_failure :
  wsgi_app Sample.json_loads Sample.uuid4_gen Sample.get_lambda_output
    SampleService.service SampleService.garbled_request SampleService.world0
  = (LambdaErrorResponses.generic_service_exception,
     extend SampleService.world0
       [EvInvoke "garbled" (text_of_string "{}") (Some (StreamId 2));
        EvGetLambdaOutput [xff]%byte]).
Proof. vm_compute. reflexivity. Qed.

